(** * IgeEngine: the engine core of the Isogenic Game Engine

    A shallow embedding of [engine/core/IgeEngine.js]: the object register
    ([$], [register], [unRegister]), the start-up dependency gate
    ([dependencyCheck], [start], [stop]), the frame loop ([tick], [render],
    [_secondTick]) and the diagnostic scene-graph walks ([sceneGraph],
    [getSceneGraphData]).

    Conventions of the embedding.
    - The engine singleton [ige] is a record [Engine]; every method is a
      function from the engine to the updated engine, the effects it issued
      on its collaborators (console, frame source, timers, drawing context,
      callbacks) and the way it completed (returned or threw).
    - Numbers are integers ([Z]): millisecond timestamps and counters.  A
      field that is [undefined] until first assigned is an [option].
    - The register, a JS object used as a dictionary, is a [gmap] from
      identifiers to object handles, holding its own keys; a lookup that
      finds no own key goes on to [Object.prototype], as it does in JS, and
      answers what every plain object inherits ([constructor], [toString],
      ...).
    - A JS truthiness test is written out: [0] and [undefined] are falsy. *)

From Stdlib Require Import ZArith Lia.
From stdpp Require Import base gmap strings list fin_maps sorting.

Local Open Scope Z_scope.
#[local] Set Warnings "-register-all".

(** ** Objects and handles *)

(** A reference to a JS object.  Two handles are equal exactly when they
    refer to the same object. *)
Abbreviation handle := positive.

(** The engine object itself: [this] inside the methods, the global [ige]. *)
Definition this : handle := 1%positive.

(** The part of an entity the register reads and writes: the identifier
    returned by [obj.id()] and the [_registered] flag. *)
Record Obj := MkObj {
  _id : string;
  _registered : option bool
}.

Definition set_registered (v : bool) (o : Obj) : Obj :=
  {| _id := _id o; _registered := Some v |}.

(** Values a method of the register can be handed or hand back. *)
Inductive Value :=
  | VUndefined
  | VNull
  | VBool (b : bool)
  | VNumber (z : Z)
  | VString (s : string)
  | VFunction (f : nat)
  | VObject (h : handle)
  (** the register object itself, with the mapping it holds *)
  | VRegister (r : gmap string handle)
  (** a built-in function of [Object.prototype], by its property name *)
  | VBuiltin (name : string)
  (** the object [Object.prototype] itself *)
  | VObjectPrototype.

(** [typeof(item)] as far as [$] inspects it. *)
Inductive TypeOf := TString | TObject | TOther.

Definition typeof (v : Value) : TypeOf :=
  match v with
  | VString _ => TString
  | VNull | VObject _ | VRegister _ | VObjectPrototype => TObject
  | _ => TOther
  end.

(** JS truthiness of a value. *)
Definition is_truthy (v : Value) : bool :=
  match v with
  | VUndefined | VNull => false
  | VBool b => b
  | VNumber z => negb (z =? 0)
  | VString s => negb (String.eqb s "")
  | _ => true
  end.

(** The functions every plain object inherits from [Object.prototype], by
    property name. *)
Definition Object_prototype_functions : list string :=
  ["constructor"; "toString"; "toLocaleString"; "valueOf"; "hasOwnProperty";
   "isPrototypeOf"; "propertyIsEnumerable"; "__defineGetter__";
   "__defineSetter__"; "__lookupGetter__"; "__lookupSetter__"]%string.

(** [Object.prototype[key]]: one of its functions, or itself for the
    accessor [__proto__] read on a plain object, or [undefined]. *)
Definition Object_prototype_get (key : string) : Value :=
  if String.eqb key "__proto__" then VObjectPrototype
  else if existsb (String.eqb key) Object_prototype_functions
       then VBuiltin key
       else VUndefined.

(** Messages handed to [this.log]. *)
Inductive LogMessage :=
  | DuplicateId (id : string)
  | StartingEngine
  | EngineStarted
  | DependencyTimeout (timeoutMs : Z).

Inductive LogLevel := info | error.

(** How a call ended. *)
Inductive Error :=
  | TypeError
  | Raised (who : string).

Inductive Completion :=
  | Return (v : Value)
  | Throw (err : Error).

(** ** Scene nodes *)

(** A viewport or entity mounted in the scene graph, as far as the engine
    core touches it.  [tick_draws] and [tick_raises] describe what the node's
    own [tick(ctx, scene)] does when the engine calls it: the number of draw
    calls it makes (each one increments [ige._drawCount]) and whether it ends
    by raising an error. *)
Inductive Node := MkNode {
  node_id : string;
  _classId : string;
  _parent : option handle;
  _depth : Z;
  node_children : option (list Node);
  _scene : option Node;
  _shouldRender : bool;
  tick_draws : Z;
  tick_raises : bool
}.

(** An [IgePoint], as far as [render] reads it. *)
Record IgePoint := MkPoint { x2 : Z; y2 : Z }.

(** A drawing context: the placeholder of the server, or the 2d context of
    a canvas. *)
Inductive CtxRef :=
  | IgeDummyContext
  | Context2d (canvas : nat).

(** What a method does to its collaborators, in the order it does it. *)
Inductive Effect :=
  | Log (m : LogMessage) (lvl : LogLevel)
  | ConsoleLog (line : string)
  | RequestAnimFrame
  | Callback (f : nat) (arg : bool)
  | CallBuiltin (name : string) (arg : bool)
  | SetTimeoutStart (callback : Value) (delay : Z)
  | ProcessBehaviours (ctx : option CtxRef)
  | CtxSave (ctx : CtxRef)
  | CtxTranslate (ctx : CtxRef) (x y : Z)
  | CtxRestore (ctx : CtxRef)
  | ChildTick (n : Node) (ctx : CtxRef)
  | InputTick.

(** ** The engine context *)

(** An entry of [_dependencyQueue]: one of the two checks the engine pushes
    itself, or a check pushed by a collaborator, given by what it answers. *)
Inductive Dependency :=
  | texturesLoaded
  | canvasReady
  | external (answer : bool).

(** A JS number that may be [NaN]. *)
Inductive Num :=
  | Finite (z : Z)
  | NaN.

Record Engine := MkEngine {
  isServer : bool;
  tickDelta : Z;
  _state : Z;
  _texturesLoading : Z;
  _dependencyQueue : list Dependency;
  _dependencyCheckTimeout : Z;
  _dependencyCheckStart : option Z;
  _drawCount : Z;
  _dpt : option Z;
  _dps : Num;
  _frames : Z;
  _fps : Z;
  _clientNetDiff : Z;
  _frameAlternator : bool;
  _viewportDepth : bool;
  _register : gmap string handle;
  _canvas : option nat;
  _ctx : option CtxRef;
  tickStart : option Z;
  lastTick : option Z;
  geometry : IgePoint;
  _children : option (list Node)
}.

(** Assignments to one field of the engine. *)

Definition set_state (v : Z) (e : Engine) : Engine :=
  {| isServer := isServer e; tickDelta := tickDelta e; _state := v;
     _texturesLoading := _texturesLoading e;
     _dependencyQueue := _dependencyQueue e;
     _dependencyCheckTimeout := _dependencyCheckTimeout e;
     _dependencyCheckStart := _dependencyCheckStart e;
     _drawCount := _drawCount e; _dpt := _dpt e; _dps := _dps e;
     _frames := _frames e; _fps := _fps e;
     _clientNetDiff := _clientNetDiff e;
     _frameAlternator := _frameAlternator e;
     _viewportDepth := _viewportDepth e; _register := _register e;
     _canvas := _canvas e; _ctx := _ctx e; tickStart := tickStart e;
     lastTick := lastTick e; geometry := geometry e;
     _children := _children e |}.

Definition set_dependencyQueue (v : list Dependency) (e : Engine) : Engine :=
  {| isServer := isServer e; tickDelta := tickDelta e; _state := _state e;
     _texturesLoading := _texturesLoading e; _dependencyQueue := v;
     _dependencyCheckTimeout := _dependencyCheckTimeout e;
     _dependencyCheckStart := _dependencyCheckStart e;
     _drawCount := _drawCount e; _dpt := _dpt e; _dps := _dps e;
     _frames := _frames e; _fps := _fps e;
     _clientNetDiff := _clientNetDiff e;
     _frameAlternator := _frameAlternator e;
     _viewportDepth := _viewportDepth e; _register := _register e;
     _canvas := _canvas e; _ctx := _ctx e; tickStart := tickStart e;
     lastTick := lastTick e; geometry := geometry e;
     _children := _children e |}.

Definition set_dependencyCheckTimeout (v : Z) (e : Engine) : Engine :=
  {| isServer := isServer e; tickDelta := tickDelta e; _state := _state e;
     _texturesLoading := _texturesLoading e;
     _dependencyQueue := _dependencyQueue e; _dependencyCheckTimeout := v;
     _dependencyCheckStart := _dependencyCheckStart e;
     _drawCount := _drawCount e; _dpt := _dpt e; _dps := _dps e;
     _frames := _frames e; _fps := _fps e;
     _clientNetDiff := _clientNetDiff e;
     _frameAlternator := _frameAlternator e;
     _viewportDepth := _viewportDepth e; _register := _register e;
     _canvas := _canvas e; _ctx := _ctx e; tickStart := tickStart e;
     lastTick := lastTick e; geometry := geometry e;
     _children := _children e |}.

Definition set_dependencyCheckStart (v : option Z) (e : Engine) : Engine :=
  {| isServer := isServer e; tickDelta := tickDelta e; _state := _state e;
     _texturesLoading := _texturesLoading e;
     _dependencyQueue := _dependencyQueue e;
     _dependencyCheckTimeout := _dependencyCheckTimeout e;
     _dependencyCheckStart := v; _drawCount := _drawCount e; _dpt := _dpt e;
     _dps := _dps e; _frames := _frames e; _fps := _fps e;
     _clientNetDiff := _clientNetDiff e;
     _frameAlternator := _frameAlternator e;
     _viewportDepth := _viewportDepth e; _register := _register e;
     _canvas := _canvas e; _ctx := _ctx e; tickStart := tickStart e;
     lastTick := lastTick e; geometry := geometry e;
     _children := _children e |}.

Definition set_register (v : gmap string handle) (e : Engine) : Engine :=
  {| isServer := isServer e; tickDelta := tickDelta e; _state := _state e;
     _texturesLoading := _texturesLoading e;
     _dependencyQueue := _dependencyQueue e;
     _dependencyCheckTimeout := _dependencyCheckTimeout e;
     _dependencyCheckStart := _dependencyCheckStart e;
     _drawCount := _drawCount e; _dpt := _dpt e; _dps := _dps e;
     _frames := _frames e; _fps := _fps e;
     _clientNetDiff := _clientNetDiff e;
     _frameAlternator := _frameAlternator e;
     _viewportDepth := _viewportDepth e; _register := v;
     _canvas := _canvas e; _ctx := _ctx e; tickStart := tickStart e;
     lastTick := lastTick e; geometry := geometry e;
     _children := _children e |}.

Definition set_tickStart (v : option Z) (e : Engine) : Engine :=
  {| isServer := isServer e; tickDelta := tickDelta e; _state := _state e;
     _texturesLoading := _texturesLoading e;
     _dependencyQueue := _dependencyQueue e;
     _dependencyCheckTimeout := _dependencyCheckTimeout e;
     _dependencyCheckStart := _dependencyCheckStart e;
     _drawCount := _drawCount e; _dpt := _dpt e; _dps := _dps e;
     _frames := _frames e; _fps := _fps e;
     _clientNetDiff := _clientNetDiff e;
     _frameAlternator := _frameAlternator e;
     _viewportDepth := _viewportDepth e; _register := _register e;
     _canvas := _canvas e; _ctx := _ctx e; tickStart := v;
     lastTick := lastTick e; geometry := geometry e;
     _children := _children e |}.

Definition set_lastTick (v : option Z) (e : Engine) : Engine :=
  {| isServer := isServer e; tickDelta := tickDelta e; _state := _state e;
     _texturesLoading := _texturesLoading e;
     _dependencyQueue := _dependencyQueue e;
     _dependencyCheckTimeout := _dependencyCheckTimeout e;
     _dependencyCheckStart := _dependencyCheckStart e;
     _drawCount := _drawCount e; _dpt := _dpt e; _dps := _dps e;
     _frames := _frames e; _fps := _fps e;
     _clientNetDiff := _clientNetDiff e;
     _frameAlternator := _frameAlternator e;
     _viewportDepth := _viewportDepth e; _register := _register e;
     _canvas := _canvas e; _ctx := _ctx e; tickStart := tickStart e;
     lastTick := v; geometry := geometry e; _children := _children e |}.

Definition set_tickDelta (v : Z) (e : Engine) : Engine :=
  {| isServer := isServer e; tickDelta := v; _state := _state e;
     _texturesLoading := _texturesLoading e;
     _dependencyQueue := _dependencyQueue e;
     _dependencyCheckTimeout := _dependencyCheckTimeout e;
     _dependencyCheckStart := _dependencyCheckStart e;
     _drawCount := _drawCount e; _dpt := _dpt e; _dps := _dps e;
     _frames := _frames e; _fps := _fps e;
     _clientNetDiff := _clientNetDiff e;
     _frameAlternator := _frameAlternator e;
     _viewportDepth := _viewportDepth e; _register := _register e;
     _canvas := _canvas e; _ctx := _ctx e; tickStart := tickStart e;
     lastTick := lastTick e; geometry := geometry e;
     _children := _children e |}.

Definition set_frameAlternator (v : bool) (e : Engine) : Engine :=
  {| isServer := isServer e; tickDelta := tickDelta e; _state := _state e;
     _texturesLoading := _texturesLoading e;
     _dependencyQueue := _dependencyQueue e;
     _dependencyCheckTimeout := _dependencyCheckTimeout e;
     _dependencyCheckStart := _dependencyCheckStart e;
     _drawCount := _drawCount e; _dpt := _dpt e; _dps := _dps e;
     _frames := _frames e; _fps := _fps e;
     _clientNetDiff := _clientNetDiff e; _frameAlternator := v;
     _viewportDepth := _viewportDepth e; _register := _register e;
     _canvas := _canvas e; _ctx := _ctx e; tickStart := tickStart e;
     lastTick := lastTick e; geometry := geometry e;
     _children := _children e |}.

Definition set_frames (v : Z) (e : Engine) : Engine :=
  {| isServer := isServer e; tickDelta := tickDelta e; _state := _state e;
     _texturesLoading := _texturesLoading e;
     _dependencyQueue := _dependencyQueue e;
     _dependencyCheckTimeout := _dependencyCheckTimeout e;
     _dependencyCheckStart := _dependencyCheckStart e;
     _drawCount := _drawCount e; _dpt := _dpt e; _dps := _dps e;
     _frames := v; _fps := _fps e; _clientNetDiff := _clientNetDiff e;
     _frameAlternator := _frameAlternator e;
     _viewportDepth := _viewportDepth e; _register := _register e;
     _canvas := _canvas e; _ctx := _ctx e; tickStart := tickStart e;
     lastTick := lastTick e; geometry := geometry e;
     _children := _children e |}.

Definition set_dpt (v : option Z) (e : Engine) : Engine :=
  {| isServer := isServer e; tickDelta := tickDelta e; _state := _state e;
     _texturesLoading := _texturesLoading e;
     _dependencyQueue := _dependencyQueue e;
     _dependencyCheckTimeout := _dependencyCheckTimeout e;
     _dependencyCheckStart := _dependencyCheckStart e;
     _drawCount := _drawCount e; _dpt := v; _dps := _dps e;
     _frames := _frames e; _fps := _fps e;
     _clientNetDiff := _clientNetDiff e;
     _frameAlternator := _frameAlternator e;
     _viewportDepth := _viewportDepth e; _register := _register e;
     _canvas := _canvas e; _ctx := _ctx e; tickStart := tickStart e;
     lastTick := lastTick e; geometry := geometry e;
     _children := _children e |}.

Definition set_drawCount (v : Z) (e : Engine) : Engine :=
  {| isServer := isServer e; tickDelta := tickDelta e; _state := _state e;
     _texturesLoading := _texturesLoading e;
     _dependencyQueue := _dependencyQueue e;
     _dependencyCheckTimeout := _dependencyCheckTimeout e;
     _dependencyCheckStart := _dependencyCheckStart e; _drawCount := v;
     _dpt := _dpt e; _dps := _dps e; _frames := _frames e; _fps := _fps e;
     _clientNetDiff := _clientNetDiff e;
     _frameAlternator := _frameAlternator e;
     _viewportDepth := _viewportDepth e; _register := _register e;
     _canvas := _canvas e; _ctx := _ctx e; tickStart := tickStart e;
     lastTick := lastTick e; geometry := geometry e;
     _children := _children e |}.

Definition set_fps (v : Z) (e : Engine) : Engine :=
  {| isServer := isServer e; tickDelta := tickDelta e; _state := _state e;
     _texturesLoading := _texturesLoading e;
     _dependencyQueue := _dependencyQueue e;
     _dependencyCheckTimeout := _dependencyCheckTimeout e;
     _dependencyCheckStart := _dependencyCheckStart e;
     _drawCount := _drawCount e; _dpt := _dpt e; _dps := _dps e;
     _frames := _frames e; _fps := v; _clientNetDiff := _clientNetDiff e;
     _frameAlternator := _frameAlternator e;
     _viewportDepth := _viewportDepth e; _register := _register e;
     _canvas := _canvas e; _ctx := _ctx e; tickStart := tickStart e;
     lastTick := lastTick e; geometry := geometry e;
     _children := _children e |}.

Definition set_dps (v : Num) (e : Engine) : Engine :=
  {| isServer := isServer e; tickDelta := tickDelta e; _state := _state e;
     _texturesLoading := _texturesLoading e;
     _dependencyQueue := _dependencyQueue e;
     _dependencyCheckTimeout := _dependencyCheckTimeout e;
     _dependencyCheckStart := _dependencyCheckStart e;
     _drawCount := _drawCount e; _dpt := _dpt e; _dps := v;
     _frames := _frames e; _fps := _fps e;
     _clientNetDiff := _clientNetDiff e;
     _frameAlternator := _frameAlternator e;
     _viewportDepth := _viewportDepth e; _register := _register e;
     _canvas := _canvas e; _ctx := _ctx e; tickStart := tickStart e;
     lastTick := lastTick e; geometry := geometry e;
     _children := _children e |}.

Definition set_clientNetDiff (v : Z) (e : Engine) : Engine :=
  {| isServer := isServer e; tickDelta := tickDelta e; _state := _state e;
     _texturesLoading := _texturesLoading e;
     _dependencyQueue := _dependencyQueue e;
     _dependencyCheckTimeout := _dependencyCheckTimeout e;
     _dependencyCheckStart := _dependencyCheckStart e;
     _drawCount := _drawCount e; _dpt := _dpt e; _dps := _dps e;
     _frames := _frames e; _fps := _fps e; _clientNetDiff := v;
     _frameAlternator := _frameAlternator e;
     _viewportDepth := _viewportDepth e; _register := _register e;
     _canvas := _canvas e; _ctx := _ctx e; tickStart := tickStart e;
     lastTick := lastTick e; geometry := geometry e;
     _children := _children e |}.

Definition set_viewportDepth (v : bool) (e : Engine) : Engine :=
  {| isServer := isServer e; tickDelta := tickDelta e; _state := _state e;
     _texturesLoading := _texturesLoading e;
     _dependencyQueue := _dependencyQueue e;
     _dependencyCheckTimeout := _dependencyCheckTimeout e;
     _dependencyCheckStart := _dependencyCheckStart e;
     _drawCount := _drawCount e; _dpt := _dpt e; _dps := _dps e;
     _frames := _frames e; _fps := _fps e;
     _clientNetDiff := _clientNetDiff e;
     _frameAlternator := _frameAlternator e; _viewportDepth := v;
     _register := _register e; _canvas := _canvas e; _ctx := _ctx e;
     tickStart := tickStart e; lastTick := lastTick e;
     geometry := geometry e; _children := _children e |}.

Definition set_children (v : option (list Node)) (e : Engine) : Engine :=
  {| isServer := isServer e; tickDelta := tickDelta e; _state := _state e;
     _texturesLoading := _texturesLoading e;
     _dependencyQueue := _dependencyQueue e;
     _dependencyCheckTimeout := _dependencyCheckTimeout e;
     _dependencyCheckStart := _dependencyCheckStart e;
     _drawCount := _drawCount e; _dpt := _dpt e; _dps := _dps e;
     _frames := _frames e; _fps := _fps e;
     _clientNetDiff := _clientNetDiff e;
     _frameAlternator := _frameAlternator e;
     _viewportDepth := _viewportDepth e; _register := _register e;
     _canvas := _canvas e; _ctx := _ctx e; tickStart := tickStart e;
     lastTick := lastTick e; geometry := geometry e; _children := v |}.

(** JS truthiness of a number that may be [undefined]. *)
Definition truthy (v : option Z) : bool :=
  match v with
  | Some z => negb (z =? 0)
  | None => false
  end.

(** The objects of the program besides the engine record: what each handle
    refers to. *)
Abbreviation store := (gmap handle Obj).

(** The state [init] leaves, for the fields modelled here.  [geometry] and
    the empty [_children] are set by the entity initialiser [init] calls
    first; the engine enters its own register under the identifier
    ['ige']. *)
Definition init (onServer : bool) (geom : IgePoint) : Engine :=
  {| isServer := onServer; tickDelta := 0; _state := 0; _texturesLoading := 0;
     _dependencyQueue := [texturesLoaded; canvasReady];
     _dependencyCheckTimeout := 30000; _dependencyCheckStart := None;
     _drawCount := 0; _dpt := None; _dps := Finite 0; _frames := 0;
     _fps := 0; _clientNetDiff := 0; _frameAlternator := false;
     _viewportDepth := false; _register := {[ "ige"%string := this ]};
     _canvas := None;
     _ctx := if onServer then Some IgeDummyContext else None;
     tickStart := None; lastTick := None; geometry := geom;
     _children := Some [] |}.

Definition init_store : store := {[ this := MkObj "ige" None ]}.

(** ** The object register *)

(** [this._register[item]]: the register is a plain object, so a key it
    does not hold itself is looked up in [Object.prototype]. *)
Definition register_get (r : gmap string handle) (key : string) : Value :=
  match r !! key with
  | Some h => VObject h
  | None => Object_prototype_get key
  end.

(** [$(item)] *)
Definition dollar (item : Value) (e : Engine) : Value :=
  match typeof item with
  | TString =>
      match item with
      | VString s => register_get (_register e) s
      | _ => VUndefined
      end
  | TObject => item
  | TOther => VObject this
  end.

(** [register(obj)].  [obj.id()] needs [obj] to be a live entity; on
    anything else but [undefined] the call raises a [TypeError].  The test
    [!this._register[obj.id()]] is a truthiness test of the lookup, which
    an inherited property passes like an entry does. *)
Definition register (obj : Value) (e : Engine) (σ : store)
  : Engine * store * list Effect * Completion :=
  match obj with
  | VUndefined => (e, σ, [], Return (VRegister (_register e)))
  | VObject h =>
      match σ !! h with
      | Some o =>
          if is_truthy (register_get (_register e) (_id o)) then
            (e, <[h := set_registered false o]> σ,
             [Log (DuplicateId (_id o)) error], Return (VBool false))
          else
            (set_register (<[_id o := h]> (_register e)) e,
             <[h := set_registered true o]> σ,
             [], Return (VObject this))
      | None => (e, σ, [], Throw TypeError)
      end
  | _ => (e, σ, [], Throw TypeError)
  end.

(** [unRegister(obj)].  [delete] removes the register's own key, if there
    is one; it does not reach an inherited property. *)
Definition unRegister (obj : Value) (e : Engine) (σ : store)
  : Engine * store * Completion :=
  match obj with
  | VUndefined => (e, σ, Return (VObject this))
  | VObject h =>
      match σ !! h with
      | Some o =>
          if is_truthy (register_get (_register e) (_id o)) then
            (set_register (delete (_id o) (_register e)) e,
             <[h := set_registered false o]> σ, Return (VObject this))
          else (e, σ, Return (VObject this))
      | None => (e, σ, Throw TypeError)
      end
  | _ => (e, σ, Throw TypeError)
  end.

(** ** The dependency gate *)

(** [dependencyTimeout(val)] *)
Definition dependencyTimeout (val : Z) (e : Engine) : Engine :=
  set_dependencyCheckTimeout val e.

(** Calling one entry of the queue: [texturesLoaded], [canvasReady], or a
    collaborator's check. *)
Definition call_dependency (e : Engine) (d : Dependency) : bool :=
  match d with
  | texturesLoaded => _texturesLoading e =? 0
  | canvasReady => bool_decide (_canvas e ≠ None) || isServer e
  | external answer => answer
  end.

(** The [while (arrCount--)] loop of [dependencyCheck], over the entries
    from the last one to the first. *)
Fixpoint dependencyCheck_loop (e : Engine) (arr : list Dependency) : bool :=
  match arr with
  | [] => true
  | d :: rest =>
      if call_dependency e d then dependencyCheck_loop e rest else false
  end.

Definition dependencyCheck (e : Engine) : bool :=
  dependencyCheck_loop e (reverse (_dependencyQueue e)).

(** [if (typeof(callback) === 'function') { callback(arg); }] *)
Definition fire (callback : Value) (arg : bool) : list Effect :=
  match callback with
  | VFunction f => [Callback f arg]
  | VBuiltin name => [CallBuiltin name arg]
  | _ => []
  end.

(** One call of [start(callback)]; [curTime] is what [new Date().getTime()]
    answers during the call.  A retry the call schedules is the effect
    [SetTimeoutStart callback 200]. *)
Definition start (curTime : Z) (callback : Value) (e : Engine)
  : Engine * list Effect :=
  if _state e =? 0 then
    if dependencyCheck e then
      (set_state 1 e,
       [Log StartingEngine info; RequestAnimFrame; Log EngineStarted info]
         ++ fire callback true)
    else
      let e1 :=
        if truthy (_dependencyCheckStart e) then e
        else set_dependencyCheckStart (Some curTime) e in
      let checkStart := default 0 (_dependencyCheckStart e1) in
      if curTime - checkStart >? _dependencyCheckTimeout e1 then
        (e1, Log (DependencyTimeout (_dependencyCheckTimeout e1)) error
               :: fire callback false)
      else
        (e1, [SetTimeoutStart callback 200])
  else (e, []).

(** [stop()] *)
Definition stop (e : Engine) : Engine * bool :=
  if negb (_state e =? 0) then (set_state 0 e, true) else (e, false).

(** The caller's [start(callback)] at [curTime] together with the retries it
    schedules for itself, each fired 200 ms after the previous check, for at
    most [fuel] checks.  Answers the engine, the effects and the time of the
    last check. *)
Fixpoint start_attempt (fuel : nat) (curTime : Z) (callback : Value)
    (e : Engine) : Engine * list Effect * Z :=
  match fuel with
  | O => (e, [], curTime)
  | S fuel' =>
      let '(e1, effs) := start curTime callback e in
      match effs with
      | [SetTimeoutStart cb delay] =>
          let '(e2, effs2, t) :=
            start_attempt fuel' (curTime + delay) cb e1 in
          (e2, effs ++ effs2, t)
      | _ => (e1, effs, curTime)
      end
  end.

(** ** Statistics *)

(** [ige._dpt * ige._fps]: the product is [NaN] while [_dpt] is still
    [undefined]. *)
Definition times (a : option Z) (b : Z) : Num :=
  match a with
  | Some x => Finite (x * b)
  | None => NaN
  end.

(** [_secondTick()] *)
Definition _secondTick (e : Engine) : Engine :=
  let e := set_fps (_frames e) e in
  let e := set_dps (times (_dpt e) (_fps e)) e in
  let e := set_frames 0 e in
  set_drawCount 0 e.

(** ** Rendering *)

(** [viewportDepth(val)]: sets the flag and returns the engine, or without
    an argument returns the flag. *)
Definition viewportDepth (val : option bool) (e : Engine) : Engine * Value :=
  match val with
  | Some v => (set_viewportDepth v e, VObject this)
  | None => (e, VBool (_viewportDepth e))
  end.

(** Modelled from the spec: the sort behind [depthSortChildren], not part
    of IgeEngine.js; see [depthSortChildren] below.  Insertion of a node in
    a list kept by falling depth; among equal depths the inserted node comes
    first, which keeps the sort stable. *)
Fixpoint depth_insert (n : Node) (arr : list Node) : list Node :=
  match arr with
  | [] => [n]
  | m :: rest =>
      if _depth m <=? _depth n then n :: m :: rest
      else m :: depth_insert n rest
  end.

(** Modelled from the spec: the stable sort of the root nodes by falling
    depth, not part of IgeEngine.js; see [depthSortChildren] below. *)
Fixpoint depth_sort (arr : list Node) : list Node :=
  match arr with
  | [] => []
  | n :: rest => depth_insert n (depth_sort rest)
  end.

(** Modelled from the spec: [depthSortChildren], which the engine inherits
    from its entity base class and which is not part of IgeEngine.js.  The
    spec has it reorder the root nodes in place by their depth attribute,
    stably, so that the node of lower depth renders first; as [render] walks
    the collection from its last element to its first, the collection is
    put in falling order of depth. *)
Definition depthSortChildren (e : Engine) : Engine :=
  match _children e with
  | Some arr => set_children (Some (depth_sort arr)) e
  | None => e
  end.

(** The [while (arrCount--)] loop of [render] over the children still to
    visit, the last one of [_children] first.  Answers the draw calls the
    visited children made, the effects, and how the loop ended: the error
    of a child's [tick] leaves the loop at once. *)
Fixpoint render_loop (ctx : CtxRef) (arr : list Node)
  : Z * list Effect * Completion :=
  match arr with
  | [] => (0, [], Return VUndefined)
  | n :: rest =>
      if tick_raises n then
        (tick_draws n, [CtxSave ctx; ChildTick n ctx],
         Throw (Raised (node_id n)))
      else
        let '(draws, effs, c) := render_loop ctx rest in
        (tick_draws n + draws,
         CtxSave ctx :: ChildTick n ctx :: CtxRestore ctx :: effs, c)
  end.

(** [render(ctx, scene)].  [scene] is only handed on to the children and is
    left out.  Calling [ctx.save] on an [undefined] context and reading
    [length] of an [undefined] collection raise a [TypeError]. *)
Definition render (ctx : option CtxRef) (e : Engine)
  : Engine * list Effect * Completion :=
  let e := if _viewportDepth e then depthSortChildren e else e in
  match ctx with
  | None => (e, [], Throw TypeError)
  | Some c =>
      let enter :=
        [CtxSave c; CtxTranslate c (x2 (geometry e)) (y2 (geometry e))] in
      match _children e with
      | None => (e, enter, Throw TypeError)
      | Some arr =>
          let '(draws, effs, r) := render_loop c (reverse arr) in
          let e := set_drawCount (_drawCount e + draws) e in
          match r with
          | Return _ => (e, enter ++ effs ++ [CtxRestore c], Return VUndefined)
          | Throw err => (e, enter ++ effs, Throw err)
          end
      end
  end.

(** ** The frame loop *)

(** [tick(timeStamp, ctx)] *)
Definition tick (timeStamp : Z) (ctx : option CtxRef) (e : Engine)
  : Engine * list Effect * Completion :=
  if negb (_state e =? 0) then
    let ctx := match ctx with None => _ctx e | Some _ => ctx end in
    let e := set_frameAlternator (negb (_frameAlternator e)) e in
    let now := timeStamp - _clientNetDiff e in
    let e := set_tickStart (Some now) e in
    let e :=
      if truthy (lastTick e)
      then set_tickDelta (now - default 0 (lastTick e)) e
      else set_tickDelta 0 (set_lastTick (Some 0) e) in
    let '(e, effs, r) := render ctx e in
    let before := RequestAnimFrame :: ProcessBehaviours ctx :: effs in
    match r with
    | Throw err => (e, before, Throw err)
    | Return _ =>
        let e := set_lastTick (tickStart e) e in
        let e := set_frames (_frames e + 1) e in
        let e := set_dpt (Some (_drawCount e)) e in
        let e := set_drawCount 0 e in
        (e, before ++ [InputTick], Return VUndefined)
    end
  else (e, [], Return VUndefined).

(** ** Walking the scene graph *)

(** The indentation [sceneGraph] builds: four spaces per level. *)
Fixpoint depthSpace (currentDepth : nat) : string :=
  match currentDepth with
  | O => ""
  | S d => "    " +:+ depthSpace d
  end.

(** [obj.id() + ' (' + obj._classId + ')'] *)
Definition label (id classId : string) : string :=
  id +:+ " (" +:+ classId +:+ ")".

(** [sceneGraph(obj, currentDepth)] for an [obj] other than the engine: its
    own line, then its children from the last to the first, one level
    deeper; a missing child collection is passed over. *)
Fixpoint sceneGraph_node (obj : Node) (currentDepth : nat) : list Effect :=
  ConsoleLog (depthSpace currentDepth +:+ label (node_id obj) (_classId obj))
  :: match node_children obj with
     | Some arr =>
         (fix loop (arr : list Node) : list Effect :=
            match arr with
            | [] => []
            | child :: rest =>
                loop rest ++ sceneGraph_node child (S currentDepth)
            end) arr
     | None => []
     end.

(** The loop of [sceneGraph] over the viewports of the engine, the last one
    first.  [arr[arrCount]._scene._shouldRender] reads a property of the
    viewport's scene: when the viewport has none, it raises a
    [TypeError]. *)
Fixpoint sceneGraph_viewports (currentDepth : nat) (arr : list Node)
  : list Effect * Completion :=
  match arr with
  | [] => ([], Return VUndefined)
  | vp :: rest =>
      match _scene vp with
      | None => ([], Throw TypeError)
      | Some scene =>
          let shown :=
            if _shouldRender scene then
              ConsoleLog (depthSpace currentDepth +:+ "    "
                            +:+ label (node_id vp) (_classId vp))
              :: sceneGraph_node scene (S (S currentDepth))
            else [] in
          let '(effs, r) := sceneGraph_viewports currentDepth rest in
          (shown ++ effs, r)
      end
  end.

(** [sceneGraph(obj, currentDepth, lastDepth)]: [obj] is a scene node, or
    absent for the engine itself. *)
Definition sceneGraph (obj : option Node) (currentDepth : option nat)
    (e : Engine) : list Effect * Completion :=
  let currentDepth := default O currentDepth in
  match obj with
  | Some n => (sceneGraph_node n currentDepth, Return VUndefined)
  | None =>
      let first :=
        ConsoleLog (depthSpace currentDepth +:+ label "ige" "IgeEngine") in
      match _children e with
      | Some arr =>
          let '(effs, r) := sceneGraph_viewports currentDepth (reverse arr) in
          (first :: effs, r)
      | None => ([first], Return VUndefined)
      end
  end.

(** The data object [getSceneGraphData] builds. *)
Inductive Item := MkItem {
  item_text : string;
  item_parent : option handle;
  item_id : string;
  item_items : option (list Item)
}.

(** [if (items.length > 0) { item.items = items; }] *)
Definition with_items (text : string) (parent : option handle) (id : string)
    (items : list Item) : Item :=
  MkItem text parent id (match items with [] => None | _ => Some items end).

(** [getSceneGraphData(obj)] for an [obj] other than the engine. *)
Fixpoint getSceneGraphData_node (obj : Node) : Item :=
  with_items (label (node_id obj) (_classId obj)) (_parent obj) (node_id obj)
    match node_children obj with
    | Some arr =>
        (fix loop (arr : list Node) : list Item :=
           match arr with
           | [] => []
           | child :: rest => loop rest ++ [getSceneGraphData_node child]
           end) arr
    | None => []
    end.

(** The entry [getSceneGraphData] makes for a viewport of the engine: the
    scene is looked into only [if (arr[arrCount]._scene)]. *)
Definition viewport_item (vp : Node) : Item :=
  MkItem (label (node_id vp) (_classId vp)) (_parent vp) (node_id vp)
    match _scene vp with
    | Some scene => Some [getSceneGraphData_node scene]
    | None => None
    end.

(** [getSceneGraphData(obj)] *)
Definition getSceneGraphData (obj : option Node) (e : Engine) : Item :=
  match obj with
  | Some n => getSceneGraphData_node n
  | None =>
      with_items (label "ige" "IgeEngine") None "ige"
        match _children e with
        | Some arr => map viewport_item (reverse arr)
        | None => []
        end
  end.

(** * Reading traces *)

(** The arguments with which a trace calls the start callback [f]. *)
Definition callbacks (f : nat) (effs : list Effect) : list bool :=
  omap (λ eff, match eff with
               | Callback g arg => if decide (g = f) then Some arg else None
               | _ => None
               end) effs.

Definition is_retry (eff : Effect) : bool :=
  match eff with SetTimeoutStart _ _ => true | _ => false end.

(** How many effects of a kind a trace has. *)
Fixpoint count (p : Effect → bool) (effs : list Effect) : nat :=
  match effs with
  | [] => O
  | eff :: rest => ((if p eff then 1 else 0) + count p rest)%nat
  end.

Definition is_save (eff : Effect) : bool :=
  match eff with CtxSave _ => true | _ => false end.

Definition is_restore (eff : Effect) : bool :=
  match eff with CtxRestore _ => true | _ => false end.

Definition saves : list Effect → nat := count is_save.
Definition restores : list Effect → nat := count is_restore.

(** The children a trace ticks, in order. *)
Definition ticked (effs : list Effect) : list Node :=
  omap (λ eff, match eff with ChildTick n _ => Some n | _ => None end) effs.

(** What [render] does on entry, and around one child whose [tick]
    returns. *)
Definition enter (e : Engine) (c : CtxRef) : list Effect :=
  [CtxSave c; CtxTranslate c (x2 (geometry e)) (y2 (geometry e))].

Definition around (c : CtxRef) (n : Node) : list Effect :=
  [CtxSave c; ChildTick n c; CtxRestore c].

Definition returns (n : Node) : Prop := tick_raises n = false.

Definition total_draws (arr : list Node) : Z :=
  foldr (λ n acc, tick_draws n + acc) 0 arr.

Definition shallower (a b : Node) : Prop := _depth a ≤ _depth b.

(** The order in which [render] visits the root nodes: from the last to the
    first of the collection, sorted beforehand if the flag is set. *)
Definition visit_order (e : Engine) (nodes : list Node) : list Node :=
  reverse (if _viewportDepth e then depth_sort nodes else nodes).

(** * Sample engines and scenes *)

(** Two entities called ['hero'], and two called ['ige'] like the engine
    itself. *)
Definition two_named_hero : store :=
  <[3%positive := MkObj "hero" None]>
    (<[2%positive := MkObj "hero" None]> init_store).


(** The engine [init] leaves on a server, and in a browser before a canvas
    is set. *)
Definition server : Engine := init true (MkPoint 0 0).
Definition browser : Engine := init false (MkPoint 0 0).

(** The browser engine after its first check failed at time 1000. *)
Definition waiting_since_1000 : Engine := (start 1000 (VFunction 7) browser).1.

(** The server engine, started, whose clock runs 250 ms ahead. *)
Definition running_server : Engine :=
  (start 1000 VUndefined (set_clientNetDiff 250 server)).1.

(** A viewport without a scene, and the server engine with given viewports
    mounted. *)
Definition viewport (id : string) (depth : Z) (raises : bool) : Node :=
  MkNode id "IgeViewport" (Some this) depth (Some []) None true 0 raises.

Definition with_viewports (sort : bool) (nodes : list Node) : Engine :=
  set_children (Some nodes) (viewportDepth (Some sort) server).1.

Definition vp3 : Node := viewport "vp3" 3 false.
Definition vp1 : Node := viewport "vp1" 1 false.
Definition vp2 : Node := viewport "vp2" 2 false.
Definition broken : Node := viewport "broken" 2 true.

(** A scene with two entities, one of them without a child collection; a
    scene that is not to be rendered; a viewport showing a scene. *)
Definition entity (id : string) (children : option (list Node)) : Node :=
  MkNode id "IgeEntity" None 0 children None true 0 false.

Definition scene1 : Node :=
  MkNode "scene1" "IgeScene2d" None 0
    (Some [entity "a" None; entity "b" (Some [entity "b1" (Some [])])])
    None true 0 false.

Definition hidden : Node :=
  MkNode "hidden" "IgeScene2d" None 0 (Some [entity "c" None]) None false 0
    false.

Definition showing (id : string) (scene : Node) : Node :=
  MkNode id "IgeViewport" (Some this) 0 (Some []) (Some scene) true 0 false.

(** * Further methods *)

(** Assignments to the fields the methods below write. *)
Definition set_texturesLoading (v : Z) (e : Engine) : Engine :=
  {| isServer := isServer e; tickDelta := tickDelta e; _state := _state e;
     _texturesLoading := v; _dependencyQueue := _dependencyQueue e;
     _dependencyCheckTimeout := _dependencyCheckTimeout e;
     _dependencyCheckStart := _dependencyCheckStart e;
     _drawCount := _drawCount e; _dpt := _dpt e; _dps := _dps e;
     _frames := _frames e; _fps := _fps e;
     _clientNetDiff := _clientNetDiff e;
     _frameAlternator := _frameAlternator e;
     _viewportDepth := _viewportDepth e; _register := _register e;
     _canvas := _canvas e; _ctx := _ctx e; tickStart := tickStart e;
     lastTick := lastTick e; geometry := geometry e;
     _children := _children e |}.

Definition set_canvas (v : option nat) (e : Engine) : Engine :=
  {| isServer := isServer e; tickDelta := tickDelta e; _state := _state e;
     _texturesLoading := _texturesLoading e;
     _dependencyQueue := _dependencyQueue e;
     _dependencyCheckTimeout := _dependencyCheckTimeout e;
     _dependencyCheckStart := _dependencyCheckStart e;
     _drawCount := _drawCount e; _dpt := _dpt e; _dps := _dps e;
     _frames := _frames e; _fps := _fps e;
     _clientNetDiff := _clientNetDiff e;
     _frameAlternator := _frameAlternator e;
     _viewportDepth := _viewportDepth e; _register := _register e;
     _canvas := v; _ctx := _ctx e; tickStart := tickStart e;
     lastTick := lastTick e; geometry := geometry e;
     _children := _children e |}.

Definition set_ctx (v : option CtxRef) (e : Engine) : Engine :=
  {| isServer := isServer e; tickDelta := tickDelta e; _state := _state e;
     _texturesLoading := _texturesLoading e;
     _dependencyQueue := _dependencyQueue e;
     _dependencyCheckTimeout := _dependencyCheckTimeout e;
     _dependencyCheckStart := _dependencyCheckStart e;
     _drawCount := _drawCount e; _dpt := _dpt e; _dps := _dps e;
     _frames := _frames e; _fps := _fps e;
     _clientNetDiff := _clientNetDiff e;
     _frameAlternator := _frameAlternator e;
     _viewportDepth := _viewportDepth e; _register := _register e;
     _canvas := _canvas e; _ctx := v; tickStart := tickStart e;
     lastTick := lastTick e; geometry := geometry e;
     _children := _children e |}.

Definition set_geometry (v : IgePoint) (e : Engine) : Engine :=
  {| isServer := isServer e; tickDelta := tickDelta e; _state := _state e;
     _texturesLoading := _texturesLoading e;
     _dependencyQueue := _dependencyQueue e;
     _dependencyCheckTimeout := _dependencyCheckTimeout e;
     _dependencyCheckStart := _dependencyCheckStart e;
     _drawCount := _drawCount e; _dpt := _dpt e; _dps := _dps e;
     _frames := _frames e; _fps := _fps e;
     _clientNetDiff := _clientNetDiff e;
     _frameAlternator := _frameAlternator e;
     _viewportDepth := _viewportDepth e; _register := _register e;
     _canvas := _canvas e; _ctx := _ctx e; tickStart := tickStart e;
     lastTick := lastTick e; geometry := v; _children := _children e |}.

(** ** Textures *)

(** A texture, as far as the engine looks at it, and the engine fields
    that only the texture methods touch. *)
Record Texture := MkTexture { _url : string; image : nat }.

Record Loader := MkLoader {
  TextureStore : list Texture;
  _texturesTotal : Z
}.

(** What the texture methods tell the outside: an event emitted, or a line
    logged. *)
Inductive Notice :=
  | Emit (eventName : string)
  | LogText (text : string).

(** [_allTexturesLoaded()] *)
Definition _allTexturesLoaded : list Notice :=
  [LogText "All textures have loaded"; Emit "texturesLoaded"].

(** [textureLoadStart()] *)
Definition textureLoadStart (e : Engine) (l : Loader)
  : Engine * Loader * list Notice :=
  (set_texturesLoading (_texturesLoading e + 1) e,
   MkLoader (TextureStore l) (_texturesTotal l + 1),
   [Emit "textureLoadStart"]).

(** [textureLoadEnd(url, textureObj)] *)
Definition textureLoadEnd (url : string) (textureObj : Texture) (e : Engine)
    (l : Loader) : Engine * Loader * list Notice :=
  let l := MkLoader (TextureStore l ++ [textureObj]) (_texturesTotal l) in
  let e := set_texturesLoading (_texturesLoading e - 1) e in
  (e, l,
   Emit "textureLoadEnd"
   :: if _texturesLoading e =? 0 then _allTexturesLoaded else []).

(** The [while (arrCount--)] loop of [textureFromUrl], over the textures
    from the last one stored to the first. *)
Fixpoint textureFromUrl_loop (url : string) (arr : list Texture)
  : option Texture :=
  match arr with
  | [] => None
  | item :: rest =>
      if String.eqb (_url item) url then Some item
      else textureFromUrl_loop url rest
  end.

(** [textureFromUrl(url)]; [None] is the [undefined] of a call that falls
    off the end of the loop. *)
Definition textureFromUrl (url : string) (l : Loader) : option Texture :=
  textureFromUrl_loop url (reverse (TextureStore l)).

(** A run of calls of the two load methods. *)
Inductive LoadCall :=
  | LoadStart
  | LoadEnd (url : string) (textureObj : Texture).

Definition load_call (st : Engine * Loader) (call : LoadCall)
  : Engine * Loader :=
  match call with
  | LoadStart => (textureLoadStart st.1 st.2).1
  | LoadEnd url textureObj => (textureLoadEnd url textureObj st.1 st.2).1
  end.

Definition load_calls (calls : list LoadCall) (st : Engine * Loader)
  : Engine * Loader :=
  foldl load_call st calls.

Definition is_LoadStart (call : LoadCall) : bool :=
  match call with LoadStart => true | LoadEnd _ _ => false end.

Definition starts (calls : list LoadCall) : Z :=
  Z.of_nat (length (filter is_LoadStart calls)).

Definition ends (calls : list LoadCall) : Z :=
  Z.of_nat (length calls) - starts calls.

(** ** Classes *)

(** [ige.ClassStore], created as [{}]: a plain object, given by its own
    keys; like the register it inherits from [Object.prototype]. *)

(** Whether a value is an object, a function or [null]: what the setter of
    [__proto__] takes for a prototype. *)
Definition is_prototype (v : Value) : bool :=
  match v with
  | VUndefined | VBool _ | VNumber _ | VString _ => false
  | _ => true
  end.

(** [defineClass(id, obj)]: the assignment [ige.ClassStore[id] = obj].  It
    writes an own key, except for the id [__proto__] on a store without
    such an own key, where it calls the accessor the store inherits: that
    one ignores a value that is no object, and makes an object (or [null])
    the prototype of the store.  A store with another prototype than
    [Object.prototype] is a plain dictionary no longer and is outside this
    model: the answer is [None] then. *)
Definition defineClass (id : string) (obj : Value)
    (ClassStore : gmap string Value) : option (gmap string Value) :=
  if String.eqb id "__proto__" then
    match ClassStore !! id with
    | Some _ => Some (<[id := obj]> ClassStore)
    | None =>
        match obj with
        | VObjectPrototype => Some ClassStore
        | _ => if is_prototype obj then None else Some ClassStore
        end
    end
  else Some (<[id := obj]> ClassStore).

(** [getClass(id)] *)
Definition getClass (id : string) (ClassStore : gmap string Value) : Value :=
  match ClassStore !! id with
  | Some v => v
  | None => Object_prototype_get id
  end.

(** ** The front buffer *)

(** A canvas element handed to [canvas], and what the engine keeps about
    the front buffer besides [_canvas] and [_ctx]: the [_autoSize] flag and
    the size of the bound canvas element. *)
Record CanvasElem := MkCanvasElem {
  elem_id : nat;
  elem_width : Z;
  elem_height : Z
}.

Record Surface := MkSurface {
  _autoSize : bool;
  width : Z;
  height : Z
}.

(** Calls on the document and on the children. *)
Inductive DomCall :=
  | AddResizeListener
  | SetupListeners
  | ChildResize (n : Node).

(** [autoSize(val)] *)
Definition autoSize (val : option bool) (s : Surface) : Surface * Value :=
  match val with
  | Some v => (MkSurface v (width s) (height s), VObject this)
  | None => (s, VBool (_autoSize s))
  end.

(** [if (newWidth % 2) { newWidth--; }], with the remainder of JS, which
    takes the sign of the dividend. *)
Definition even_down (v : Z) : Z :=
  if Z.rem v 2 =? 0 then v else v - 1.

Section FrontBuffer.

(** The constructor of [IgePoint], which is not part of this file. *)
Variable newIgePoint : Z → Z → Z → IgePoint.

(** [_resizeEvent(event)], with the inner size of the window at the time.
    Reading [length] of an [undefined] child collection and writing the
    width of an [undefined] canvas raise a [TypeError]. *)
Definition _resizeEvent (innerWidth innerHeight : Z) (e : Engine)
    (s : Surface) : Engine * Surface * list DomCall * Completion :=
  if _autoSize s then
    match _children e with
    | None => (e, s, [], Throw TypeError)
    | Some arr =>
        let newWidth := even_down innerWidth in
        let newHeight := even_down innerHeight in
        match _canvas e with
        | None => (e, s, [], Throw TypeError)
        | Some _ =>
            (set_geometry (newIgePoint newWidth newHeight 0) e,
             MkSurface (_autoSize s) newWidth newHeight,
             map ChildResize (reverse arr), Return VUndefined)
        end
    end
  else (e, s, [], Return VUndefined).

(** [canvas(elem, autoSize)] *)
Definition canvas (elem : CanvasElem) (auto : bool)
    (innerWidth innerHeight : Z) (e : Engine) (s : Surface)
  : Engine * Surface * list DomCall * Completion :=
  match _canvas e with
  | Some _ => (e, s, [], Return VUndefined)
  | None =>
      let e := set_canvas (Some (elem_id elem)) e in
      let e := set_ctx (Some (Context2d (elem_id elem))) e in
      let s := MkSurface (_autoSize s) (elem_width elem) (elem_height elem) in
      if auto then
        let s := MkSurface auto (width s) (height s) in
        let '(e, s, calls, r) := _resizeEvent innerWidth innerHeight e s in
        match r with
        | Return _ =>
            (e, s, AddResizeListener :: calls ++ [SetupListeners],
             Return VUndefined)
        | Throw err => (e, s, AddResizeListener :: calls, Throw err)
        end
      else (e, s, [SetupListeners], Return VUndefined)
  end.

End FrontBuffer.

(** ** Frames and walks *)

(** The drawing context a tick works with:
    [if (ctx === undefined) { ctx = ige._ctx; }]. *)
Definition resolve (ctx : option CtxRef) (e : Engine) : option CtxRef :=
  match ctx with
  | None => _ctx e
  | Some _ => ctx
  end.

(** The frames fired one after the other with the given timestamps; a frame
    that raises has re-armed the loop before, so the next one still
    fires. *)
Fixpoint ticks (timeStamps : list Z) (ctx : option CtxRef) (e : Engine)
  : Engine :=
  match timeStamps with
  | [] => e
  | timeStamp :: rest => ticks rest ctx (tick timeStamp ctx e).1.1
  end.

(** Whether [sceneGraph] shows a viewport: it has a scene, and the scene is
    to be rendered. *)
Definition is_shown (vp : Node) : bool :=
  match _scene vp with
  | Some scene => _shouldRender scene
  | None => false
  end.

(** The lines an item of [getSceneGraphData] stands for, one per item, each
    level indented like [sceneGraph] does. *)
Fixpoint item_lines (currentDepth : nat) (it : Item) : list Effect :=
  ConsoleLog (depthSpace currentDepth +:+ item_text it)
  :: match item_items it with
     | Some items =>
         (fix each (items : list Item) : list Effect :=
            match items with
            | [] => []
            | i :: rest => item_lines (S currentDepth) i ++ each rest
            end) items
     | None => []
     end.

(** * Properties *)

(** ** The object register *)

Section Register.

Variables (e : Engine) (σ : store).

Lemma register_get_undefined (key : string) :
  register_get (_register e) key = VUndefined → _register e !! key = None.
Proof. unfold register_get. by destruct (_register e !! key). Qed.

Lemma register_get_own (key : string) (h : handle) :
  _register e !! key = Some h → register_get (_register e) key = VObject h.
Proof. unfold register_get. by intros ->. Qed.

Lemma register_fresh (h : handle) (o : Obj) :
  σ !! h = Some o → register_get (_register e) (_id o) = VUndefined →
  register (VObject h) e σ
  = (set_register (<[_id o := h]> (_register e)) e,
     <[h := set_registered true o]> σ, [], Return (VObject this)).
Proof. intros Hh Hfree. unfold register. by rewrite Hh, Hfree. Qed.

Lemma register_taken (h : handle) (o : Obj) :
  σ !! h = Some o → is_truthy (register_get (_register e) (_id o)) = true →
  register (VObject h) e σ
  = (e, <[h := set_registered false o]> σ,
     [Log (DuplicateId (_id o)) error], Return (VBool false)).
Proof. intros Hh Htaken. unfold register. by rewrite Hh, Htaken. Qed.

End Register.





(** C10: called without an argument, [register] changes neither the engine
    nor any object, logs nothing, and returns the register mapping itself,
    which is neither the engine returned on success nor the [false] returned
    on a duplicate. *)
Theorem register_undefined_returns_register (e : Engine) (σ : store) :
  register VUndefined e σ = (e, σ, [], Return (VRegister (_register e)))
  ∧ Return (VRegister (_register e)) ≠ Return (VObject this)
  ∧ Return (VRegister (_register e)) ≠ Return (VBool false).
Proof. by repeat split. Qed.

(** The keys [Object.prototype] answers for. *)
Lemma Object_prototype_get_undefined (key : string) :
  Object_prototype_get key = VUndefined
  ↔ key ≠ "__proto__"%string ∧ key ∉ Object_prototype_functions.
Proof.
  unfold Object_prototype_get.
  destruct (String.eqb_spec key "__proto__") as [->|Hne].
  - split; [done|]. by intros [? _].
  - destruct (existsb (String.eqb key) Object_prototype_functions) eqn:Hex.
    + split; [done|]. intros [_ Hnot]. exfalso. apply Hnot.
      apply existsb_exists in Hex as (name & Hin & Heq).
      apply String.eqb_eq in Heq as ->. by apply list_elem_of_In.
    + split; [|done]. intros _. split; [done|]. intros Hin.
      apply list_elem_of_In in Hin.
      assert (existsb (String.eqb key) Object_prototype_functions = true)
        as Htrue by (apply existsb_exists; exists key;
                     by rewrite String.eqb_refl).
      congruence.
Qed.



(** X5: what [register] enters, [$] finds: after a registration that
    returned the engine, looking up the object's identifier answers that
    object. *)
Lemma dollar_after_register (e e1 : Engine) (σ σ1 : store) (h : handle)
    (o : Obj) (effs : list Effect) :
  σ !! h = Some o →
  register (VObject h) e σ = (e1, σ1, effs, Return (VObject this)) →
  dollar (VString (_id o)) e1 = VObject h.
Proof.
  intros Hh. unfold register. rewrite Hh.
  destruct (is_truthy _) eqn:Hr; [discriminate|].
  intros [= <- _ _]. unfold dollar. cbn [typeof].
  apply register_get_own. cbn. apply lookup_insert_eq.
Qed.

(** Unregistering an object whose identifier the register answers
    [undefined] for changes nothing and returns the engine. *)
Lemma unRegister_absent (e : Engine) (σ : store) (h : handle) (o : Obj) :
  σ !! h = Some o → register_get (_register e) (_id o) = VUndefined →
  unRegister (VObject h) e σ = (e, σ, Return (VObject this)).
Proof. intros Hh Hnone. unfold unRegister. by rewrite Hh, Hnone. Qed.

(** ** The dependency gate *)

(** [dependencyCheck] answers [true] exactly when every entry of the queue
    does. *)
Lemma dependencyCheck_loop_Forall (e : Engine) (arr : list Dependency) :
  dependencyCheck_loop e arr = true
  ↔ Forall (λ d, call_dependency e d = true) arr.
Proof.
  induction arr as [|d rest IH]; [by split|].
  cbn. rewrite Forall_cons.
  destruct (call_dependency e d); [|by split; [|intros []]].
  rewrite IH. by split; [|intros []].
Qed.

Lemma dependencyCheck_all (e : Engine) :
  dependencyCheck e = true
  ↔ Forall (λ d, call_dependency e d = true) (_dependencyQueue e).
Proof.
  unfold dependencyCheck.
  by rewrite dependencyCheck_loop_Forall, Forall_reverse.
Qed.

(** C5: when the engine is stopped and every check of the dependency queue
    answers [true], the one call [start(callback)] sets the state to
    running, requests the first frame, and calls the callback with [true],
    once; it schedules no retry. *)
Theorem start_when_ready (e : Engine) (curTime : Z) (f : nat) :
  _state e = 0 →
  Forall (λ d, call_dependency e d = true) (_dependencyQueue e) →
  start curTime (VFunction f) e
  = (set_state 1 e,
     [Log StartingEngine info; RequestAnimFrame; Log EngineStarted info;
      Callback f true])
  ∧ _state (start curTime (VFunction f) e).1 = 1
  ∧ RequestAnimFrame ∈ (start curTime (VFunction f) e).2
  ∧ callbacks f (start curTime (VFunction f) e).2 = [true]
  ∧ filter is_retry (start curTime (VFunction f) e).2 = [].
Proof.
  intros Hstopped Hall. apply dependencyCheck_all in Hall.
  assert (Hstart : start curTime (VFunction f) e
          = (set_state 1 e,
             [Log StartingEngine info; RequestAnimFrame;
              Log EngineStarted info; Callback f true])).
  { unfold start. by rewrite Hstopped, Hall. }
  rewrite Hstart. repeat split.
  - cbn. set_solver.
  - cbn. by rewrite decide_True.
Qed.

(** The engine [init] leaves on a server, once a canvas-less start is in
    order: no texture is loading and the process is headless. *)
Lemma start_when_ready_witness :
  start 1000 (VFunction 7) server
  = (set_state 1 server,
     [Log StartingEngine info; RequestAnimFrame; Log EngineStarted info;
      Callback 7 true])
  ∧ _state (start 1000 (VFunction 7) server).1 = 1
  ∧ RequestAnimFrame ∈ (start 1000 (VFunction 7) server).2
  ∧ callbacks 7 (start 1000 (VFunction 7) server).2
    = [true]
  ∧ filter is_retry (start 1000 (VFunction 7) server).2
    = [].
Proof.
  apply (start_when_ready server 1000 7).
  - reflexivity.
  - repeat constructor.
Defined.

(** Once a first-failure time is on record, no call of [start] replaces
    it. *)
Lemma start_keeps_dependencyCheckStart (e : Engine) (curTime t0 : Z)
    (callback : Value) :
  _dependencyCheckStart e = Some t0 → t0 ≠ 0 →
  _dependencyCheckStart (start curTime callback e).1 = Some t0.
Proof.
  intros Hrec Hnz. unfold start.
  assert (Htruthy : truthy (_dependencyCheckStart e) = true).
  { rewrite Hrec. cbn. by apply negb_true_iff, Z.eqb_neq. }
  rewrite Htruthy.
  destruct (_state e =? 0); [|done].
  destruct (dependencyCheck e); [done|].
  by destruct (_ >? _).
Qed.

(** C4, amended: while the engine is stopped and some check of the queue
    fails, a call of [start] records the current time as the first-failure
    time only if none is on record; a time on record is never reset, by a
    retry or by a fresh call: every later call measures its wait from it,
    schedules a retry while the wait is within the timeout and, once the
    wait exceeds the timeout, reports the timeout at once, without waiting
    again. *)
Theorem start_measures_from_first_failure (e : Engine) (curTime t0 : Z)
    (callback : Value) :
  _state e = 0 → dependencyCheck e = false →
  (truthy (_dependencyCheckStart e) = false →
     _dependencyCheckStart (start curTime callback e).1 = Some curTime)
  ∧ (_dependencyCheckStart e = Some t0 → t0 ≠ 0 →
     _dependencyCheckStart (start curTime callback e).1 = Some t0
     ∧ (curTime - t0 ≤ _dependencyCheckTimeout e →
          start curTime callback e = (e, [SetTimeoutStart callback 200]))
     ∧ (curTime - t0 > _dependencyCheckTimeout e →
          start curTime callback e
          = (e, Log (DependencyTimeout (_dependencyCheckTimeout e)) error
                  :: fire callback false))).
Proof.
  intros Hstopped Hfail. split.
  - intros Hnone. unfold start. rewrite Hstopped, Hfail, Hnone. cbn.
    by destruct (_ >? _).
  - intros Hrec Hnz.
    split; [by apply start_keeps_dependencyCheckStart|].
    assert (Htruthy : truthy (_dependencyCheckStart e) = true).
    { rewrite Hrec. cbn. by apply negb_true_iff, Z.eqb_neq. }
    unfold start. rewrite Hstopped, Hfail, Htruthy, Hrec. cbn.
    split; intros Hwait.
    + destruct (Z.gtb_spec (curTime - t0) (_dependencyCheckTimeout e));
        [lia|done].
    + destruct (Z.gtb_spec (curTime - t0) (_dependencyCheckTimeout e));
        [done|lia].
Qed.

Lemma start_measures_from_first_failure_witness :
  (truthy (_dependencyCheckStart waiting_since_1000) = false →
     _dependencyCheckStart
       (start 40000 (VFunction 7) waiting_since_1000).1 = Some 40000)
  ∧ (_dependencyCheckStart waiting_since_1000 = Some 1000 → 1000 ≠ 0 →
     _dependencyCheckStart
       (start 40000 (VFunction 7) waiting_since_1000).1 = Some 1000
     ∧ (40000 - 1000 ≤ _dependencyCheckTimeout waiting_since_1000 →
          start 40000 (VFunction 7) waiting_since_1000
          = (waiting_since_1000, [SetTimeoutStart (VFunction 7) 200]))
     ∧ (40000 - 1000 > _dependencyCheckTimeout waiting_since_1000 →
          start 40000 (VFunction 7) waiting_since_1000
          = (waiting_since_1000,
             Log (DependencyTimeout
                    (_dependencyCheckTimeout waiting_since_1000)) error
               :: fire (VFunction 7) false))).
Proof.
  apply (start_measures_from_first_failure waiting_since_1000 40000 1000
           (VFunction 7)); reflexivity.
Defined.

(** From the engine [init] leaves in a browser, with no canvas: an attempt
    begun at time 1000 retries every 200 ms and reports the timeout at
    31200; a fresh attempt at 40000 reports it at 40000, at its first
    check. *)
Example start_attempt_twice :
  let '(e1, effs1, t1) :=
    start_attempt 200 1000 (VFunction 7) browser in
  let '(e2, effs2, t2) := start_attempt 200 40000 (VFunction 7) e1 in
  t1 = 31200 ∧ callbacks 7 effs1 = [false]
  ∧ _dependencyCheckStart e1 = Some 1000
  ∧ t2 = 40000
  ∧ effs2 = [Log (DependencyTimeout 30000) error; Callback 7 false]
  ∧ _dependencyCheckStart e2 = Some 1000.
Proof. vm_compute. by repeat split. Qed.

(** C4 as stated fails: after an attempt has reported its timeout, a fresh
    call of [start] does not record a new first-failure time. *)
Lemma start_retry_after_timeout_keeps_old_time :
  ¬ (∀ (e : Engine) (t1 t2 : Z) (f : nat),
       _state e = 0 → dependencyCheck e = false →
       (start t1 (VFunction f) e).2
       = [Log (DependencyTimeout (_dependencyCheckTimeout e)) error;
          Callback f false] →
       t1 < t2 →
       _dependencyCheckStart
         (start t2 (VFunction f) (start t1 (VFunction f) e).1).1 = Some t2).
Proof.
  intros H.
  specialize (H waiting_since_1000 31200 40000 7%nat).
  vm_compute in H.
  by specialize (H eq_refl eq_refl eq_refl eq_refl).
Qed.

(** Start, stop, stop again: the callback hears [true], the first [stop]
    answers [true] and the second [false]. *)
Example start_stop_stop :
  let '(e1, effs) := start 1000 (VFunction 7) server in
  let '(e2, stopped) := stop e1 in
  let '(e3, stopped_again) := stop e2 in
  callbacks 7 effs = [true] ∧ _state e1 = 1
  ∧ stopped = true ∧ _state e2 = 0
  ∧ stopped_again = false ∧ _state e3 = 0.
Proof. by repeat split. Qed.

(** ** Statistics *)

(** C7: every firing of [_secondTick], in whatever state the engine is,
    copies [_frames] into [_fps], sets [_dps] to the product of [_dpt] and
    the new [_fps], and zeroes [_frames] and [_drawCount]; the state is not
    looked at and not changed. *)
Theorem secondTick_counters (e : Engine) :
  _fps (_secondTick e) = _frames e
  ∧ _dps (_secondTick e) = times (_dpt e) (_fps (_secondTick e))
  ∧ match _dpt e with
    | Some draws => _dps (_secondTick e) = Finite (draws * _frames e)
    | None => _dps (_secondTick e) = NaN
    end
  ∧ _frames (_secondTick e) = 0
  ∧ _drawCount (_secondTick e) = 0
  ∧ _state (_secondTick e) = _state e.
Proof.
  repeat split. cbn. by destruct (_dpt e).
Qed.

(** ** The frame loop *)

(** [render] writes [_children] and [_drawCount] only. *)
Lemma render_fields (ctx : option CtxRef) (e e' : Engine)
    (effs : list Effect) (r : Completion) :
  render ctx e = (e', effs, r) →
  _state e' = _state e ∧ lastTick e' = lastTick e
  ∧ tickStart e' = tickStart e ∧ tickDelta e' = tickDelta e
  ∧ _clientNetDiff e' = _clientNetDiff e.
Proof.
  unfold render, depthSortChildren. intros Hr.
  repeat case_match; simplify_eq; done.
Qed.

Section Tick.

Variables (e : Engine) (timeStamp : Z) (ctx : option CtxRef).
Hypothesis running : _state e ≠ 0.

Lemma tick_tickDelta :
  tickDelta (tick timeStamp ctx e).1.1
  = if truthy (lastTick e)
    then timeStamp - _clientNetDiff e - default 0 (lastTick e)
    else 0.
Proof using running.
  unfold tick. apply Z.eqb_neq in running. rewrite running. cbn [negb].
  destruct (render _ _) as [[e' effs] r] eqn:Hr.
  apply render_fields in Hr as (_ & _ & _ & Hdelta & _). cbn in Hdelta.
  destruct r; cbn; rewrite Hdelta; by destruct (truthy (lastTick e)).
Qed.

Lemma tick_lastTick :
  (tick timeStamp ctx e).2 = Return VUndefined →
  lastTick (tick timeStamp ctx e).1.1 = Some (timeStamp - _clientNetDiff e).
Proof using running.
  unfold tick. apply Z.eqb_neq in running. rewrite running. cbn [negb].
  destruct (render _ _) as [[e' effs] r] eqn:Hr.
  apply render_fields in Hr as (_ & _ & Hstart & _ & _). cbn in Hstart.
  destruct r; [|done]. intros _. cbn. rewrite Hstart.
  by destruct (truthy (lastTick e)).
Qed.

Lemma tick_keeps_state_and_offset :
  _state (tick timeStamp ctx e).1.1 = _state e
  ∧ _clientNetDiff (tick timeStamp ctx e).1.1 = _clientNetDiff e.
Proof using running.
  unfold tick. apply Z.eqb_neq in running. rewrite running. cbn [negb].
  destruct (render _ _) as [[e' effs] r] eqn:Hr.
  apply render_fields in Hr as (Hstate & _ & _ & _ & Hoff).
  cbn in Hstate, Hoff.
  destruct r; cbn; rewrite ?Hstate, ?Hoff; by destruct (truthy (lastTick e)).
Qed.

End Tick.

(** C6, amended: in a running engine, a tick that finds no previous tick
    time (none stored, or the stored one is zero) sets [tickDelta] to zero;
    and when a tick with raw time [t1] has returned and its corrected time
    [t1 - _clientNetDiff] is not zero, the next tick, with raw time [t2],
    sets [tickDelta] to the difference of the two corrected times, which is
    [t2 - t1]. *)
Theorem tick_delta (e : Engine) (t1 t2 : Z) (ctx1 ctx2 : option CtxRef) :
  _state e ≠ 0 →
  (truthy (lastTick e) = false → tickDelta (tick t1 ctx1 e).1.1 = 0)
  ∧ ((tick t1 ctx1 e).2 = Return VUndefined →
     t1 - _clientNetDiff e ≠ 0 →
     tickDelta (tick t2 ctx2 (tick t1 ctx1 e).1.1).1.1
     = (t2 - _clientNetDiff e) - (t1 - _clientNetDiff e)
     ∧ tickDelta (tick t2 ctx2 (tick t1 ctx1 e).1.1).1.1 = t2 - t1).
Proof.
  intros Hrun. split.
  - intros Hfirst. by rewrite tick_tickDelta, Hfirst.
  - intros Hret Hnz.
    destruct (tick_keeps_state_and_offset e t1 ctx1 Hrun) as [Hstate Hoff].
    assert (Hdelta : tickDelta (tick t2 ctx2 (tick t1 ctx1 e).1.1).1.1
                     = t2 - _clientNetDiff e - (t1 - _clientNetDiff e)).
    { rewrite tick_tickDelta by (by rewrite Hstate).
      rewrite tick_lastTick, Hoff by done. cbn.
      by apply Z.eqb_neq in Hnz as ->. }
    split; [exact Hdelta|]. rewrite Hdelta. lia.
Qed.

Lemma tick_delta_witness :
  (truthy (lastTick running_server) = false →
     tickDelta (tick 5000 None running_server).1.1 = 0)
  ∧ ((tick 5000 None running_server).2 = Return VUndefined →
     5000 - _clientNetDiff running_server ≠ 0 →
     tickDelta (tick 5016 None (tick 5000 None running_server).1.1).1.1
     = (5016 - _clientNetDiff running_server)
       - (5000 - _clientNetDiff running_server)
     ∧ tickDelta (tick 5016 None (tick 5000 None running_server).1.1).1.1
       = 5016 - 5000).
Proof.
  apply (tick_delta running_server 5000 5016 None None). vm_compute.
  discriminate.
Defined.

(** C6 as stated fails: when the first tick's corrected time is zero, the
    tick after it is taken for a first tick again and gets the delta
    zero. *)
Lemma tick_delta_zero_after_corrected_time_zero :
  ¬ (∀ (e : Engine) (t1 t2 : Z) (ctx : option CtxRef),
       _state e ≠ 0 → lastTick e = None →
       (tick t1 ctx e).2 = Return VUndefined →
       tickDelta (tick t2 ctx (tick t1 ctx e).1.1).1.1 = t2 - t1).
Proof.
  intros H.
  specialize (H running_server 250 266 None).
  vm_compute in H.
  by specialize (H ltac:(discriminate) eq_refl eq_refl).
Qed.

(** ** Rendering *)

Lemma count_app (p : Effect → bool) (l1 l2 : list Effect) :
  count p (l1 ++ l2) = (count p l1 + count p l2)%nat.
Proof. induction l1 as [|eff l1 IH]; cbn; [done|]. rewrite IH. lia. Qed.

Section RenderLoop.

Variable c : CtxRef.

Lemma saves_around (arr : list Node) :
  saves (flat_map (around c) arr) = length arr.
Proof. induction arr as [|n arr IH]; cbn; [done|]. by f_equal. Qed.

Lemma restores_around (arr : list Node) :
  restores (flat_map (around c) arr) = length arr.
Proof. induction arr as [|n arr IH]; cbn; [done|]. by f_equal. Qed.

Lemma ticked_around (arr : list Node) :
  ticked (flat_map (around c) arr) = arr.
Proof. induction arr as [|n arr IH]; cbn; [done|]. by f_equal. Qed.

Lemma ticked_app (l1 l2 : list Effect) :
  ticked (l1 ++ l2) = ticked l1 ++ ticked l2.
Proof. apply omap_app. Qed.

(** When every child returns, the loop wraps each one in a save and a
    restore and runs to its end. *)
Lemma render_loop_returns (arr : list Node) :
  Forall returns arr →
  render_loop c arr
  = (total_draws arr, flat_map (around c) arr, Return VUndefined).
Proof.
  induction 1 as [|n arr Hn _ IH]; [done|].
  cbn. rewrite Hn. cbn in IH. by rewrite IH.
Qed.

(** The first child that raises ends the loop: its save stays open and the
    children after it are not visited. *)
Lemma render_loop_raises (pre post : list Node) (n : Node) :
  Forall returns pre → tick_raises n = true →
  render_loop c (pre ++ n :: post)
  = (total_draws pre + tick_draws n,
     flat_map (around c) pre ++ [CtxSave c; ChildTick n c],
     Throw (Raised (node_id n))).
Proof.
  intros Hpre Hn. induction Hpre as [|m pre Hm _ IH]; cbn.
  - by rewrite Hn.
  - rewrite Hm. cbn in IH. rewrite IH. by rewrite Z.add_assoc.
Qed.

End RenderLoop.

(** The sort keeps the nodes and puts them in falling order of depth. *)
Lemma depth_insert_Permutation (n : Node) (arr : list Node) :
  depth_insert n arr ≡ₚ n :: arr.
Proof.
  induction arr as [|m rest IH]; cbn; [done|].
  destruct (_ <=? _); [done|]. rewrite IH. apply Permutation_swap.
Qed.

Lemma depth_sort_Permutation (arr : list Node) : depth_sort arr ≡ₚ arr.
Proof.
  induction arr as [|n rest IH]; cbn; [done|].
  by rewrite depth_insert_Permutation, IH.
Qed.

Lemma depth_insert_sorted (n : Node) (arr : list Node) :
  StronglySorted (flip shallower) arr →
  StronglySorted (flip shallower) (depth_insert n arr).
Proof.
  unfold flip, shallower.
  induction 1 as [|m rest Hsorted IH Hm]; cbn; [by repeat constructor|].
  destruct (Z.leb_spec (_depth m) (_depth n)) as [Hle|Hgt].
  - constructor; [by constructor|]. constructor; [done|].
    eapply Forall_impl; [exact Hm|]. cbn. intros; lia.
  - constructor; [exact IH|].
    rewrite depth_insert_Permutation. constructor; [lia|done].
Qed.

Lemma depth_sort_sorted (arr : list Node) :
  StronglySorted (flip shallower) (depth_sort arr).
Proof.
  induction arr as [|n rest IH]; cbn; [constructor|].
  by apply depth_insert_sorted.
Qed.

Lemma StronglySorted_reverse {A : Type} (R : relation A) (l : list A) :
  StronglySorted (flip R) l → StronglySorted R (reverse l).
Proof.
  induction 1 as [|x l _ IH Hx]; [constructor|].
  rewrite reverse_cons.
  apply StronglySorted_app_2; [|done|by repeat constructor].
  intros y x' Hy ->%list_elem_of_singleton.
  rewrite elem_of_reverse in Hy. rewrite Forall_forall in Hx. by apply Hx.
Qed.

Lemma visit_order_Permutation (e : Engine) (nodes : list Node) :
  visit_order e nodes ≡ₚ nodes.
Proof.
  unfold visit_order. rewrite reverse_Permutation.
  destruct (_viewportDepth e); [apply depth_sort_Permutation|done].
Qed.

Section Render.

Variables (e : Engine) (c : CtxRef) (nodes : list Node).
Hypothesis children : _children e = Some nodes.

Lemma render_all_return :
  Forall returns nodes →
  (render (Some c) e).1.2
  = enter e c ++ flat_map (around c) (visit_order e nodes) ++ [CtxRestore c]
  ∧ (render (Some c) e).2 = Return VUndefined.
Proof using children.
  intros Hall.
  assert (Hvisit : Forall returns (visit_order e nodes))
    by by rewrite visit_order_Permutation.
  revert Hvisit. unfold render, visit_order, depthSortChildren.
  rewrite children. destruct (_viewportDepth e); cbn; intros Hvisit.
  - by rewrite (render_loop_returns c _ Hvisit).
  - rewrite children. by rewrite (render_loop_returns c _ Hvisit).
Qed.

Lemma render_one_raises (pre post : list Node) (n : Node) :
  visit_order e nodes = pre ++ n :: post →
  Forall returns pre → tick_raises n = true →
  (render (Some c) e).1.2
  = enter e c ++ flat_map (around c) pre ++ [CtxSave c; ChildTick n c]
  ∧ (render (Some c) e).2 = Throw (Raised (node_id n)).
Proof using children.
  unfold render, visit_order, depthSortChildren.
  rewrite children. destruct (_viewportDepth e); cbn; intros Hv Hpre Hn.
  - by rewrite Hv, (render_loop_raises c _ _ _ Hpre Hn).
  - by rewrite children, Hv, (render_loop_raises c _ _ _ Hpre Hn).
Qed.

End Render.

(** C2, amended: for an engine with N root nodes, when every node's tick
    returns, [render] issues one save, the translation, then for each node
    a save, the node's tick and a restore, and a last restore: N + 1 saves
    and N + 1 restores, and it returns.  When a node's tick raises, the
    error leaves [render] at once: the nodes after it are not ticked, and
    the save around that node and the outer save are left without their
    restores. *)
Theorem render_scoping (e : Engine) (c : CtxRef) (nodes : list Node) :
  _children e = Some nodes →
  (Forall returns nodes →
     (render (Some c) e).2 = Return VUndefined
     ∧ (render (Some c) e).1.2
       = [CtxSave c; CtxTranslate c (x2 (geometry e)) (y2 (geometry e))]
           ++ flat_map (around c) (visit_order e nodes) ++ [CtxRestore c]
     ∧ saves (render (Some c) e).1.2 = S (length nodes)
     ∧ restores (render (Some c) e).1.2 = S (length nodes))
  ∧ (∀ (pre post : list Node) (n : Node),
       visit_order e nodes = pre ++ n :: post →
       Forall returns pre → tick_raises n = true →
       (render (Some c) e).2 = Throw (Raised (node_id n))
       ∧ ticked (render (Some c) e).1.2 = pre ++ [n]
       ∧ saves (render (Some c) e).1.2 = S (S (length pre))
       ∧ restores (render (Some c) e).1.2 = length pre).
Proof.
  intros Hch. split.
  - intros Hall.
    destruct (render_all_return e c nodes Hch Hall) as [-> ->].
    assert (Hlen : length (visit_order e nodes) = length nodes)
      by by rewrite visit_order_Permutation.
    repeat split.
    + unfold saves. rewrite !count_app. fold saves.
      rewrite saves_around, Hlen. cbn. lia.
    + unfold restores. rewrite !count_app. fold restores.
      rewrite restores_around, Hlen. cbn. lia.
  - intros pre post n Hvisit Hpre Hn.
    destruct (render_one_raises e c nodes Hch pre post n Hvisit Hpre Hn)
      as [-> ->].
    repeat split.
    + by rewrite !ticked_app, ticked_around.
    + unfold saves. rewrite !count_app. fold saves.
      rewrite saves_around. cbn. lia.
    + unfold restores. rewrite !count_app. fold restores.
      rewrite restores_around. cbn. lia.
Qed.

Lemma render_scoping_witness :
  let e := with_viewports false [vp3; vp1; vp2] in
  let c := IgeDummyContext in
  (Forall returns [vp3; vp1; vp2] →
     (render (Some c) e).2 = Return VUndefined
     ∧ (render (Some c) e).1.2
       = [CtxSave c; CtxTranslate c 0 0]
           ++ flat_map (around c) [vp2; vp1; vp3] ++ [CtxRestore c]
     ∧ saves (render (Some c) e).1.2 = 4%nat
     ∧ restores (render (Some c) e).1.2 = 4%nat)
  ∧ (∀ (pre post : list Node) (n : Node),
       [vp2; vp1; vp3] = pre ++ n :: post →
       Forall returns pre → tick_raises n = true →
       (render (Some c) e).2 = Throw (Raised (node_id n))
       ∧ ticked (render (Some c) e).1.2 = pre ++ [n]
       ∧ saves (render (Some c) e).1.2 = S (S (length pre))
       ∧ restores (render (Some c) e).1.2 = length pre).
Proof.
  apply (render_scoping (with_viewports false [vp3; vp1; vp2])
           IgeDummyContext [vp3; vp1; vp2]).
  reflexivity.
Defined.

(** C2 as stated fails: with the three root nodes [vp3], [broken], [vp1],
    of which [broken] raises, [render] ticks [vp1] and [broken] and ends
    with three saves and one restore, not four of each. *)
Lemma render_leaves_saves_open_on_error :
  ¬ (∀ (e : Engine) (c : CtxRef) (nodes : list Node),
       _children e = Some nodes →
       saves (render (Some c) e).1.2 = S (length nodes)
       ∧ restores (render (Some c) e).1.2 = S (length nodes)).
Proof.
  intros H.
  destruct (H (with_viewports false [vp3; broken; vp1]) IgeDummyContext
              [vp3; broken; vp1] eq_refl) as [_ Hrestores].
  vm_compute in Hrestores. discriminate Hrestores.
Qed.

Example render_error_trace :
  render (Some IgeDummyContext) (with_viewports false [vp3; broken; vp1])
  = (with_viewports false [vp3; broken; vp1],
     [CtxSave IgeDummyContext; CtxTranslate IgeDummyContext 0 0;
      CtxSave IgeDummyContext; ChildTick vp1 IgeDummyContext;
      CtxRestore IgeDummyContext;
      CtxSave IgeDummyContext; ChildTick broken IgeDummyContext],
     Throw (Raised "broken")).
Proof. reflexivity. Qed.

(** C3, amended: when every root node's tick returns, [render] with the
    depth-sort flag set ticks the root nodes by rising depth, each of them
    once; with the flag not set it ticks them in the reverse of their order
    in the collection, the last one first. *)
Theorem render_order (e : Engine) (c : CtxRef) (nodes : list Node) :
  _children e = Some nodes → Forall returns nodes →
  (_viewportDepth e = true →
     ticked (render (Some c) e).1.2 = reverse (depth_sort nodes)
     ∧ StronglySorted shallower (ticked (render (Some c) e).1.2)
     ∧ ticked (render (Some c) e).1.2 ≡ₚ nodes)
  ∧ (_viewportDepth e = false →
     ticked (render (Some c) e).1.2 = reverse nodes).
Proof.
  intros Hch Hall.
  destruct (render_all_return e c nodes Hch Hall) as [-> _].
  rewrite !ticked_app, ticked_around. cbn. rewrite app_nil_r.
  unfold visit_order. split; intros ->; [|done].
  repeat split.
  - apply StronglySorted_reverse, depth_sort_sorted.
  - by rewrite reverse_Permutation, depth_sort_Permutation.
Qed.

Lemma render_order_witness :
  (map _depth
     (ticked (render (Some IgeDummyContext)
                (with_viewports true [vp3; vp1; vp2])).1.2) = [1; 2; 3]
   ∧ ticked (render (Some IgeDummyContext)
               (with_viewports true [vp3; vp1; vp2])).1.2
     = reverse (depth_sort [vp3; vp1; vp2]))
  ∧ (map _depth
       (ticked (render (Some IgeDummyContext)
                  (with_viewports false [vp3; vp1; vp2])).1.2) = [2; 1; 3]
     ∧ ticked (render (Some IgeDummyContext)
                 (with_viewports false [vp3; vp1; vp2])).1.2
       = reverse [vp3; vp1; vp2]).
Proof.
  split.
  - split; [reflexivity|].
    apply (render_order (with_viewports true [vp3; vp1; vp2])
             IgeDummyContext [vp3; vp1; vp2]);
      [reflexivity|repeat constructor|reflexivity].
  - split; [reflexivity|].
    apply (render_order (with_viewports false [vp3; vp1; vp2])
             IgeDummyContext [vp3; vp1; vp2]);
      [reflexivity|repeat constructor|reflexivity].
Defined.

(** C3 as stated fails: with the flag not set, root nodes of depths 3, 1, 2
    are not ticked in the order of the collection but in its reverse, 2, 1,
    3. *)
Lemma render_unsorted_is_reversed :
  ¬ (∀ (e : Engine) (c : CtxRef) (nodes : list Node),
       _children e = Some nodes → Forall returns nodes →
       _viewportDepth e = false →
       ticked (render (Some c) e).1.2 = nodes).
Proof.
  intros H.
  specialize (H (with_viewports false [vp3; vp1; vp2]) IgeDummyContext
                [vp3; vp1; vp2] eq_refl).
  vm_compute in H.
  by specialize (H ltac:(repeat constructor) eq_refl).
Qed.

(** ** Walking the scene graph *)

(** Below the engine the walk always returns; a node without a child
    collection contributes its own line only. *)
Lemma sceneGraph_node_returns (n : Node) (currentDepth : nat) (e : Engine) :
  sceneGraph (Some n) (Some currentDepth) e
  = (sceneGraph_node n currentDepth, Return VUndefined).
Proof. reflexivity. Qed.

Lemma sceneGraph_node_no_children (n : Node) (currentDepth : nat) :
  node_children n = None →
  sceneGraph_node n currentDepth
  = [ConsoleLog (depthSpace currentDepth +:+ label (node_id n) (_classId n))].
Proof. intros Hnone. destruct n. cbn in *. by rewrite Hnone. Qed.

(** Over the viewports the walk returns exactly when each of them has a
    scene; otherwise it raises a [TypeError]. *)
Lemma sceneGraph_viewports_completion (currentDepth : nat)
    (arr : list Node) :
  (Forall (λ vp, _scene vp ≠ None) arr
   ∧ (sceneGraph_viewports currentDepth arr).2 = Return VUndefined)
  ∨ (Exists (λ vp, _scene vp = None) arr
     ∧ (sceneGraph_viewports currentDepth arr).2 = Throw TypeError).
Proof.
  induction arr as [|vp rest IH]; cbn; [by left|].
  destruct (_scene vp) as [scene|] eqn:Hscene.
  - destruct (sceneGraph_viewports currentDepth rest) as [effs r].
    cbn in *. destruct IH as [[Hall ->]|[Hex ->]].
    + left. split; [|done]. constructor; [by rewrite Hscene|done].
    + right. split; [|done]. by apply Exists_cons_tl.
  - right. split; [|done]. by apply Exists_cons_hd.
Qed.

(** X25: [sceneGraph] on the engine raises a [TypeError] exactly when some
    viewport has no scene. *)
Lemma sceneGraph_engine_completion (e : Engine) (nodes : list Node) :
  _children e = Some nodes →
  (sceneGraph None None e).2 = Throw TypeError
  ↔ Exists (λ vp, _scene vp = None) nodes.
Proof.
  intros Hch. unfold sceneGraph. rewrite Hch. cbn.
  destruct (sceneGraph_viewports_completion 0 (reverse nodes))
    as [[Hall Hr]|[Hex Hr]];
    destruct (sceneGraph_viewports 0 (reverse nodes)) as [effs r];
    cbn in *; subst r.
  - split; [done|]. intros Hex. exfalso.
    rewrite Forall_reverse in Hall.
    apply Exists_exists in Hex as (vp & Hin & Hnone).
    rewrite Forall_forall in Hall. by apply (Hall vp).
  - split; [|done]. intros _.
    apply Exists_exists in Hex as (vp & Hin & Hnone).
    apply Exists_exists. exists vp. by rewrite elem_of_reverse in Hin.
Qed.

Example sceneGraph_output :
  sceneGraph None None
    (with_viewports false [showing "vpHidden" hidden; showing "vpMain" scene1])
  = ([ConsoleLog "ige (IgeEngine)";
      ConsoleLog "    vpMain (IgeViewport)";
      ConsoleLog "        scene1 (IgeScene2d)";
      ConsoleLog "            b (IgeEntity)";
      ConsoleLog "                b1 (IgeEntity)";
      ConsoleLog "            a (IgeEntity)"],
     Return VUndefined).
Proof. reflexivity. Qed.

(** C9, on the code: with a viewport that has no scene, here [vp1], mounted
    on the engine, [sceneGraph] raises a [TypeError] after its first line,
    instead of passing the viewport over; [getSceneGraphData], which tests
    the scene reference first, describes the same graph. *)
Theorem sceneGraph_raises_without_scene :
  _scene vp1 = None
  ∧ sceneGraph None None (with_viewports false [showing "vpMain" scene1; vp1])
    = ([ConsoleLog "ige (IgeEngine)"], Throw TypeError)
  ∧ getSceneGraphData None (with_viewports false [vp1])
    = MkItem "ige (IgeEngine)" None "ige"
        (Some [MkItem "vp1 (IgeViewport)" (Some this) "vp1" None]).
Proof. by repeat split. Qed.

(** * Further properties *)

(** ** The object register *)

Lemma unRegister_present (e : Engine) (σ : store) (h : handle) (o : Obj) :
  σ !! h = Some o → is_truthy (register_get (_register e) (_id o)) = true →
  unRegister (VObject h) e σ
  = (set_register (delete (_id o) (_register e)) e,
     <[h := set_registered false o]> σ, Return (VObject this)).
Proof. intros Hh Hin. unfold unRegister. by rewrite Hh, Hin. Qed.

Lemma register_get_entered (e : Engine) (key : string) (h : handle) :
  register_get (_register (set_register (<[key := h]> (_register e)) e)) key
  = VObject h.
Proof. apply register_get_own. cbn. apply lookup_insert_eq. Qed.

Lemma register_get_deleted (e : Engine) (key : string) :
  register_get (_register (set_register (delete key (_register e)) e)) key
  = Object_prototype_get key.
Proof. unfold register_get. cbn. by rewrite lookup_delete_eq. Qed.

(** X1: registering an object under an identifier the register answers
    [undefined] for and unregistering it again gives back the register
    mapping as it was; the identifier is free again and the object is
    marked unregistered. *)
Theorem register_unRegister_round_trip (e : Engine) (σ : store)
    (h : handle) (o : Obj) :
  σ !! h = Some o → register_get (_register e) (_id o) = VUndefined →
  let '(e1, σ1, _, r1) := register (VObject h) e σ in
  let '(e2, σ2, r2) := unRegister (VObject h) e1 σ1 in
  r1 = Return (VObject this) ∧ r2 = Return (VObject this)
  ∧ _register e2 = _register e
  ∧ dollar (VString (_id o)) e1 = VObject h
  ∧ dollar (VString (_id o)) e2 = VUndefined
  ∧ _registered <$> σ2 !! h = Some (Some false).
Proof.
  intros Hh Hfree. rewrite (register_fresh e σ h o Hh Hfree).
  rewrite (unRegister_present _ _ h (set_registered true o));
    [|apply lookup_insert_eq|cbn [_id set_registered];
                             by rewrite register_get_entered].
  pose proof (register_get_undefined e (_id o) Hfree) as Hnone.
  split; [done|]. split; [done|]. split; [|split; [|split]].
  - cbn. by apply delete_insert_id.
  - unfold dollar. cbn [typeof]. apply register_get_entered.
  - unfold dollar. cbn [typeof]. cbn [_id set_registered].
    unfold register_get. cbn.
    rewrite (delete_insert_id _ _ _ Hnone). exact Hfree.
  - by rewrite lookup_insert_eq.
Qed.

Lemma register_unRegister_round_trip_witness :
  let '(e1, σ1, _, r1) :=
    register (VObject 2%positive) server two_named_hero in
  let '(e2, σ2, r2) := unRegister (VObject 2%positive) e1 σ1 in
  r1 = Return (VObject this) ∧ r2 = Return (VObject this)
  ∧ _register e2 = _register server
  ∧ dollar (VString "hero") e1 = VObject 2%positive
  ∧ dollar (VString "hero") e2 = VUndefined
  ∧ _registered <$> σ2 !! 2%positive = Some (Some false).
Proof.
  apply (register_unRegister_round_trip server two_named_hero 2%positive
           (MkObj "hero" None)); reflexivity.
Defined.

(** X2: [unRegister] is idempotent: on a live object, a second call right
    after the first changes neither the engine nor any object. *)
Theorem unRegister_twice (e : Engine) (σ : store) (h : handle) (o : Obj) :
  σ !! h = Some o →
  let '(e1, σ1, r1) := unRegister (VObject h) e σ in
  r1 = Return (VObject this)
  ∧ unRegister (VObject h) e1 σ1 = (e1, σ1, Return (VObject this)).
Proof.
  intros Hh. unfold unRegister at 1. rewrite Hh.
  destruct (is_truthy (register_get (_register e) (_id o))) eqn:Hin.
  - split; [done|]. unfold unRegister. rewrite lookup_insert_eq.
    cbn [_id set_registered _register set_register].
    destruct (is_truthy (register_get (delete _ _) _)); [|done].
    by rewrite delete_delete_eq, insert_insert_eq.
  - split; [done|]. unfold unRegister. by rewrite Hh, Hin.
Qed.

Lemma unRegister_twice_witness :
  let '(e1, σ1, r1) := unRegister (VObject this) server init_store in
  r1 = Return (VObject this)
  ∧ unRegister (VObject this) e1 σ1 = (e1, σ1, Return (VObject this)).
Proof.
  apply (unRegister_twice server init_store this (MkObj "ige" None)).
  reflexivity.
Defined.

(** X3: [unRegister] goes by the identifier, not by the object: when A is
    registered, under an identifier the register answered [undefined] for,
    and B, another object with A's identifier, has been refused,
    unregistering B removes A's entry; the identifier is then free although
    A is still marked registered. *)
Theorem unRegister_duplicate_evicts_first (e : Engine) (σ : store)
    (a b : handle) (A B : Obj) :
  σ !! a = Some A → σ !! b = Some B → a ≠ b → _id A = _id B →
  register_get (_register e) (_id A) = VUndefined →
  let '(e1, σ1, _, _) := register (VObject a) e σ in
  let '(e2, σ2, _, r2) := register (VObject b) e1 σ1 in
  let '(e3, σ3, _) := unRegister (VObject b) e2 σ2 in
  r2 = Return (VBool false)
  ∧ dollar (VString (_id A)) e2 = VObject a
  ∧ dollar (VString (_id A)) e3 = VUndefined
  ∧ _registered <$> σ3 !! a = Some (Some true).
Proof.
  intros Ha Hb Hne Hid Hfree.
  rewrite (register_fresh e σ a A Ha Hfree).
  rewrite (register_taken _ _ b B);
    [|by rewrite lookup_insert_ne
     |by rewrite <- Hid, register_get_entered].
  rewrite (unRegister_present _ _ b (set_registered false B));
    [|apply lookup_insert_eq
     |cbn [_id set_registered]; by rewrite <- Hid, register_get_entered].
  pose proof (register_get_undefined e (_id A) Hfree) as Hnone.
  split; [done|]. split; [|split].
  - unfold dollar. cbn [typeof]. apply register_get_entered.
  - unfold dollar. cbn [typeof]. cbn [_id set_registered]. rewrite <- Hid.
    unfold register_get. cbn.
    rewrite (delete_insert_id _ _ _ Hnone), Hnone.
    unfold register_get in Hfree. by rewrite Hnone in Hfree.
  - rewrite !(lookup_insert_ne _ b a) by done. by rewrite lookup_insert_eq.
Qed.

Lemma unRegister_duplicate_evicts_first_witness :
  let '(e1, σ1, _, _) :=
    register (VObject 2%positive) server two_named_hero in
  let '(e2, σ2, _, r2) := register (VObject 3%positive) e1 σ1 in
  let '(e3, σ3, _) := unRegister (VObject 3%positive) e2 σ2 in
  r2 = Return (VBool false)
  ∧ dollar (VString "hero") e2 = VObject 2%positive
  ∧ dollar (VString "hero") e3 = VUndefined
  ∧ _registered <$> σ3 !! 2%positive = Some (Some true).
Proof.
  apply (unRegister_duplicate_evicts_first server two_named_hero 2%positive
           3%positive (MkObj "hero" None) (MkObj "hero" None));
    reflexivity || discriminate.
Defined.

(** X4: [register] never replaces or removes an entry: whatever it is
    called with, every identifier that had an object keeps that object, and
    no object other than the one handed in has its flag changed. *)
Theorem register_keeps_entries (obj : Value) (e : Engine) (σ : store) :
  (∀ (k : string) (h : handle),
      _register e !! k = Some h →
      _register (register obj e σ).1.1.1 !! k = Some h)
  ∧ (∀ h : handle,
      obj ≠ VObject h → (register obj e σ).1.1.2 !! h = σ !! h).
Proof.
  unfold register. split.
  - intros k h Hk. repeat case_match; simplify_eq; try done.
    cbn. rewrite lookup_insert_ne; [done|]. intros <-.
    match goal with
    | H : is_truthy _ = false |- _ =>
        by rewrite (register_get_own _ _ h Hk) in H
    end.
  - intros h Hh. repeat case_match; simplify_eq; try done;
      cbn; rewrite lookup_insert_ne; congruence.
Qed.

Lemma dollar_after_register_witness :
  dollar (VString "hero")
    (register (VObject 2%positive) server two_named_hero).1.1.1
  = VObject 2%positive.
Proof.
  apply (dollar_after_register server _ two_named_hero
           (register (VObject 2%positive) server two_named_hero).1.1.2
           2%positive (MkObj "hero" None) []); reflexivity.
Defined.

(** ** The dependency gate *)

(** X6: [stop] answers [true] exactly when the engine was running, leaves
    the engine stopped, and a second [stop] answers [false] and changes
    nothing. *)
Theorem stop_twice (e : Engine) :
  ((stop e).2 = true ↔ _state e ≠ 0)
  ∧ _state (stop e).1 = 0
  ∧ stop (stop e).1 = ((stop e).1, false).
Proof.
  unfold stop. destruct (Z.eqb_spec (_state e) 0) as [Hz|Hnz]; cbn.
  - rewrite Hz. cbn. by repeat split.
  - by repeat split.
Qed.

(** X7: one call of [start] with a function as callback ends in one of four
    ways: nothing at all when the engine runs already; the callback called
    once with [true] and the engine running; the callback called once with
    [false] and the engine still stopped; or one retry scheduled in 200 ms,
    the callback not called and the engine still stopped.  The callback is
    never called twice, and never together with a retry. *)
Theorem start_outcomes (e : Engine) (curTime : Z) (f : nat) :
  let '(e', effs) := start curTime (VFunction f) e in
  (_state e ≠ 0 ∧ e' = e ∧ effs = [])
  ∨ (_state e = 0 ∧ dependencyCheck e = true ∧ _state e' = 1
     ∧ callbacks f effs = [true] ∧ filter is_retry effs = [])
  ∨ (_state e = 0 ∧ dependencyCheck e = false ∧ _state e' = 0
     ∧ callbacks f effs = [false] ∧ filter is_retry effs = [])
  ∨ (_state e = 0 ∧ dependencyCheck e = false ∧ _state e' = 0
     ∧ callbacks f effs = [] ∧ effs = [SetTimeoutStart (VFunction f) 200]).
Proof.
  unfold start. destruct (Z.eqb_spec (_state e) 0) as [Hz|Hnz]; [|by left].
  destruct (dependencyCheck e).
  - right; left. cbn. by rewrite decide_True.
  - assert (Hstate : _state (if truthy (_dependencyCheckStart e) then e
                             else set_dependencyCheckStart (Some curTime) e)
                     = 0) by by destruct (truthy _).
    destruct (_ >? _).
    + right; right; left. cbn. by rewrite decide_True.
    + by right; right; right.
Qed.

(** A retry or a fresh call leaves an engine with a first-failure time on
    record as it is, while the wait is within the timeout. *)
Lemma start_waits (e : Engine) (curTime t0 : Z) (callback : Value) :
  _state e = 0 → dependencyCheck e = false →
  _dependencyCheckStart e = Some t0 → t0 ≠ 0 →
  start curTime callback e
  = (e, if curTime - t0 >? _dependencyCheckTimeout e
        then Log (DependencyTimeout (_dependencyCheckTimeout e)) error
               :: fire callback false
        else [SetTimeoutStart callback 200]).
Proof.
  intros Hstopped Hfail Hrec Hnz. unfold start.
  rewrite Hstopped, Hfail, Hrec. cbn.
  apply Z.eqb_neq in Hnz as ->. cbn. rewrite Hrec. cbn.
  by destruct (_ >? _).
Qed.

Lemma start_attempt_recorded (fuel : nat) (e : Engine) (t0 curTime : Z)
    (f : nat) :
  _state e = 0 → dependencyCheck e = false →
  _dependencyCheckStart e = Some t0 → t0 ≠ 0 →
  curTime - t0 ≤ _dependencyCheckTimeout e + 200 →
  _dependencyCheckTimeout e + 200 - (curTime - t0) < 200 * Z.of_nat fuel →
  ∃ (effs : list Effect) (t : Z),
    start_attempt fuel curTime (VFunction f) e = (e, effs, t)
    ∧ callbacks f effs = [false]
    ∧ _dependencyCheckTimeout e < t - t0 ≤ _dependencyCheckTimeout e + 200.
Proof.
  intros Hstopped Hfail Hrec Hnz.
  revert curTime. induction fuel as [|fuel IH]; intros curTime Hin Hfuel;
    [lia|].
  cbn [start_attempt].
  rewrite (start_waits e curTime t0 _ Hstopped Hfail Hrec Hnz).
  destruct (Z.gtb_spec (curTime - t0) (_dependencyCheckTimeout e))
    as [Hover|Hstill].
  - eexists _, _. split; [reflexivity|]. split; [|lia].
    cbn. by rewrite decide_True.
  - destruct (IH (curTime + 200)) as (effs & t & -> & Hcb & Ht); [lia..|].
    by exists ([SetTimeoutStart (VFunction f) 200] ++ effs), t.
Qed.

Lemma dependencyCheck_set_dependencyCheckStart (v : option Z) (e : Engine) :
  dependencyCheck (set_dependencyCheckStart v e) = dependencyCheck e.
Proof.
  unfold dependencyCheck.
  change (_dependencyQueue (set_dependencyCheckStart v e))
    with (_dependencyQueue e).
  generalize (reverse (_dependencyQueue e)). intros arr.
  induction arr as [|d rest IH]; [reflexivity|].
  cbn. rewrite IH. by destruct d.
Qed.

(** X8: when a check of the queue keeps failing, an attempt to start, begun
    at time [t0] on a stopped engine with no first-failure time on record
    and retried every 200 ms, calls the callback once, with [false], at a
    time that is later than [t0] by more than the timeout and by at most
    the timeout plus one retry interval; the engine is left stopped, with
    [t0] on record.  ([fuel] bounds the number of checks simulated.) *)
Theorem start_attempt_times_out (fuel : nat) (e : Engine) (t0 : Z)
    (f : nat) :
  _state e = 0 → dependencyCheck e = false →
  truthy (_dependencyCheckStart e) = false → t0 ≠ 0 →
  0 ≤ _dependencyCheckTimeout e →
  _dependencyCheckTimeout e < 200 * (Z.of_nat fuel - 1) →
  ∃ (effs : list Effect) (t : Z),
    start_attempt fuel t0 (VFunction f) e
    = (set_dependencyCheckStart (Some t0) e, effs, t)
    ∧ callbacks f effs = [false]
    ∧ _dependencyCheckTimeout e < t - t0 ≤ _dependencyCheckTimeout e + 200.
Proof.
  intros Hstopped Hfail Hnone Hnz Hpos Hfuel.
  destruct fuel as [|fuel]; [lia|].
  destruct (start_attempt_recorded fuel (set_dependencyCheckStart (Some t0) e)
              t0 (t0 + 200) f) as (effs & t & Hrun & Hcb & Ht);
    [done|by rewrite dependencyCheck_set_dependencyCheckStart|done|done
    |cbn; lia..|].
  cbn [start_attempt]. unfold start at 1.
  rewrite Hstopped, Hfail, Hnone. cbn.
  destruct (Z.gtb_spec (t0 - t0) (_dependencyCheckTimeout e)); [lia|].
  rewrite Hrun. by exists ([SetTimeoutStart (VFunction f) 200] ++ effs), t.
Qed.

Lemma start_attempt_times_out_witness :
  ∃ (effs : list Effect) (t : Z),
    start_attempt 200 1000 (VFunction 7) browser
    = (set_dependencyCheckStart (Some 1000) browser, effs, t)
    ∧ callbacks 7 effs = [false]
    ∧ _dependencyCheckTimeout browser < t - 1000
      ≤ _dependencyCheckTimeout browser + 200.
Proof.
  apply (start_attempt_times_out 200 browser 1000 7);
    reflexivity || discriminate.
Defined.

(** ** Textures *)

Lemma starts_snoc (calls : list LoadCall) (call : LoadCall) :
  starts (calls ++ [call])
  = starts calls + (if is_LoadStart call then 1 else 0).
Proof.
  unfold starts. rewrite filter_app, length_app.
  destruct call; cbn;
    [rewrite decide_True by done|rewrite decide_False by tauto]; cbn; lia.
Qed.

Lemma ends_snoc (calls : list LoadCall) (call : LoadCall) :
  ends (calls ++ [call]) = ends calls + (if is_LoadStart call then 0 else 1).
Proof.
  unfold ends. rewrite starts_snoc, length_app.
  destruct call; cbn; lia.
Qed.

(** The counters after a run of load calls. *)
Lemma load_calls_counts (calls : list LoadCall) (e : Engine)
    (l : Loader) :
  _texturesLoading (load_calls calls (e, l)).1
  = _texturesLoading e + starts calls - ends calls
  ∧ _texturesTotal (load_calls calls (e, l)).2
    = _texturesTotal l + starts calls
  ∧ Z.of_nat (length (TextureStore (load_calls calls (e, l)).2))
    = Z.of_nat (length (TextureStore l)) + ends calls.
Proof.
  unfold load_calls.
  induction calls as [|call calls IH] using rev_ind.
  - assert (starts [] = 0 ∧ ends [] = 0) as [Hs He] by done.
    cbn. lia.
  - rewrite foldl_app, starts_snoc, ends_snoc. cbn [foldl].
    destruct (foldl load_call (e, l) calls) as [e' l'].
    cbn [fst snd] in IH. destruct IH as (Hloading & Htotal & Hstore).
    destruct call; cbn; rewrite ?length_app; cbn; lia.
Qed.

(** X9: after any run of [textureLoadStart] and [textureLoadEnd] calls, the
    number of textures loading is the number before, plus the starts, minus
    the ends; the total counts the starts; the store has grown by one
    texture per end.  Nothing keeps the number loading from going below
    zero when ends outnumber starts. *)
Theorem load_calls_counters (calls : list LoadCall) (e : Engine)
    (l : Loader) :
  _texturesLoading (load_calls calls (e, l)).1
  = _texturesLoading e + starts calls - ends calls
  ∧ _texturesTotal (load_calls calls (e, l)).2
    = _texturesTotal l + starts calls
  ∧ Z.of_nat (length (TextureStore (load_calls calls (e, l)).2))
    = Z.of_nat (length (TextureStore l)) + ends calls.
Proof. apply load_calls_counts. Qed.

(** [start] on an engine with the queue [init] sets up, when a drawing
    surface is there or the process is headless, goes by the textures
    alone. *)
Lemma dependencyCheck_textures (e : Engine) :
  _dependencyQueue e = [texturesLoaded; canvasReady] →
  call_dependency e canvasReady = true →
  dependencyCheck e = (_texturesLoading e =? 0).
Proof.
  intros Hq Hcanvas. unfold dependencyCheck. rewrite Hq.
  change (dependencyCheck_loop e (reverse [texturesLoaded; canvasReady]))
    with (if call_dependency e canvasReady
          then if _texturesLoading e =? 0 then true else false
          else false).
  rewrite Hcanvas. by destruct (_ =? 0).
Qed.

Lemma load_calls_engine (calls : list LoadCall) (e : Engine) (l : Loader) :
  (load_calls calls (e, l)).1
  = set_texturesLoading (_texturesLoading (load_calls calls (e, l)).1) e.
Proof.
  unfold load_calls.
  induction calls as [|call calls IH] using rev_ind.
  - by destruct e.
  - rewrite foldl_app. cbn [foldl].
    destruct (foldl load_call (e, l) calls) as [e' l'].
    cbn [fst snd] in IH. rewrite IH. by destruct call.
Qed.

(** X10: on the headless engine [init] leaves, after any run of texture
    load calls, [start] succeeds at once exactly when the ends have matched
    the starts; otherwise it records the time and schedules a retry. *)
Theorem start_after_load_calls (calls : list LoadCall) (l : Loader)
    (geom : IgePoint) (curTime : Z) (f : nat) :
  let e := (load_calls calls (init true geom, l)).1 in
  start curTime (VFunction f) e
  = if starts calls =? ends calls
    then (set_state 1 e,
          [Log StartingEngine info; RequestAnimFrame; Log EngineStarted info;
           Callback f true])
    else (set_dependencyCheckStart (Some curTime) e,
          [SetTimeoutStart (VFunction f) 200]).
Proof.
  intros e.
  assert (Hcheck : dependencyCheck e = (starts calls =? ends calls)).
  { rewrite dependencyCheck_textures.
    - subst e.
      destruct (load_calls_counts calls (init true geom) l) as [-> _].
      cbn. destruct (Z.eqb_spec (starts calls) (ends calls));
        [by apply Z.eqb_eq; lia|by apply Z.eqb_neq; lia].
    - subst e. by rewrite load_calls_engine.
    - subst e. by rewrite load_calls_engine. }
  assert (Hstate : _state e = 0) by (subst e; by rewrite load_calls_engine).
  assert (Hrec : _dependencyCheckStart e = None)
    by (subst e; by rewrite load_calls_engine).
  assert (Htimeout : _dependencyCheckTimeout e = 30000)
    by (subst e; by rewrite load_calls_engine).
  unfold start. rewrite Hstate, Hcheck, Hrec. cbn.
  destruct (starts calls =? ends calls); [done|].
  rewrite Htimeout. by replace (curTime - curTime) with 0 by lia.
Qed.

(** X11: [textureLoadEnd] announces that all textures have loaded exactly
    when the texture that ended was the only one still loading. *)
Theorem textureLoadEnd_announces (url : string) (textureObj : Texture)
    (e : Engine) (l : Loader) :
  Emit "texturesLoaded" ∈ (textureLoadEnd url textureObj e l).2
  ↔ _texturesLoading e = 1.
Proof.
  unfold textureLoadEnd. cbn.
  destruct (Z.eqb_spec (_texturesLoading e - 1) 0) as [Hz|Hnz].
  - split; [lia|]. intros _. unfold _allTexturesLoaded. set_solver.
  - split; [|lia]. intros Hin. exfalso.
    apply elem_of_cons in Hin as [Heq|Hin]; [discriminate|].
    by apply elem_of_nil in Hin.
Qed.

Lemma textureFromUrl_loop_found (url : string) (arr : list Texture)
    (t : Texture) :
  textureFromUrl_loop url arr = Some t → t ∈ arr ∧ _url t = url.
Proof.
  induction arr as [|item rest IH]; [done|]. cbn.
  destruct (String.eqb_spec (_url item) url) as [Heq|Hne].
  - intros [= ->]. split; [left|done].
  - intros Hfound. destruct (IH Hfound) as [Hin Hurl].
    split; [by right|done].
Qed.

Lemma textureFromUrl_loop_none (url : string) (arr : list Texture) :
  textureFromUrl_loop url arr = None ↔ ∀ t, t ∈ arr → _url t ≠ url.
Proof.
  induction arr as [|item rest IH]; cbn.
  - split; [|done]. intros _ t Hin. by apply elem_of_nil in Hin.
  - destruct (String.eqb_spec (_url item) url) as [Heq|Hne].
    + split; [done|]. intros Hall. exfalso. apply (Hall item); [left|done].
    + rewrite IH. split.
      * intros Hall t [->|Hin]%elem_of_cons; [done|by apply Hall].
      * intros Hall t Hin. apply Hall. by right.
Qed.

(** X12: [textureFromUrl] answers a texture of the store that has the url
    asked for, and answers nothing exactly when the store has no texture
    with that url. *)
Theorem textureFromUrl_sound_complete (url : string) (l : Loader) :
  (∀ t : Texture,
      textureFromUrl url l = Some t → t ∈ TextureStore l ∧ _url t = url)
  ∧ (textureFromUrl url l = None
     ↔ ∀ t : Texture, t ∈ TextureStore l → _url t ≠ url).
Proof.
  unfold textureFromUrl. split.
  - intros t Hfound.
    apply textureFromUrl_loop_found in Hfound as [Hin Hurl].
    by rewrite elem_of_reverse in Hin.
  - rewrite textureFromUrl_loop_none.
    split; intros Hall t Hin; apply Hall;
      [by rewrite elem_of_reverse|by rewrite elem_of_reverse in Hin].
Qed.

(** X13: of several textures stored under one url, [textureFromUrl] answers
    the one stored last: right after [textureLoadEnd] has stored a texture,
    that texture is the answer for its url, and the answer for every other
    url is what it was. *)
Theorem textureFromUrl_after_textureLoadEnd (url url' : string)
    (textureObj : Texture) (e : Engine) (l : Loader) :
  textureFromUrl url' (textureLoadEnd url textureObj e l).1.2
  = if String.eqb (_url textureObj) url' then Some textureObj
    else textureFromUrl url' l.
Proof.
  unfold textureFromUrl, textureLoadEnd. cbn [fst snd TextureStore].
  by rewrite reverse_app.
Qed.

(** ** Classes *)

(** X14: for an identifier other than [__proto__], [getClass] answers the
    definition [defineClass] stored last under it: a second definition
    silently replaces the first, unlike [register], and other identifiers
    are not touched.  An identifier never defined answers what the store
    inherits from [Object.prototype]: [undefined] only if it is none of the
    inherited names.  Defining [__proto__] as a value that is no object
    stores nothing. *)
Theorem getClass_after_defineClass (id id' : string) (obj obj' : Value)
    (ClassStore : gmap string Value) :
  id ≠ "__proto__"%string →
  ∃ cs1 cs2 : gmap string Value,
    defineClass id obj ClassStore = Some cs1
    ∧ defineClass id obj' cs1 = Some cs2
    ∧ getClass id cs1 = obj ∧ getClass id cs2 = obj'
    ∧ getClass id' cs1
      = (if decide (id = id') then obj else getClass id' ClassStore)
    ∧ (getClass id' ∅ = VUndefined
       ↔ id' ≠ "__proto__"%string ∧ id' ∉ Object_prototype_functions)
    ∧ (is_prototype obj = false →
       ClassStore !! "__proto__"%string = None →
       defineClass "__proto__" obj ClassStore = Some ClassStore
       ∧ getClass "__proto__" ClassStore = VObjectPrototype).
Proof.
  intros Hid. apply String.eqb_neq in Hid.
  exists (<[id := obj]> ClassStore),
    (<[id := obj']> (<[id := obj]> ClassStore)).
  assert (Hempty : getClass id' ∅ = Object_prototype_get id')
    by (unfold getClass; by rewrite lookup_empty).
  rewrite Hempty. unfold defineClass, getClass. rewrite Hid.
  split; [done|]. split; [done|].
  split; [by rewrite lookup_insert_eq|].
  split; [by rewrite lookup_insert_eq|].
  split; [rewrite lookup_insert; by destruct (decide (id = id'))|].
  split; [apply Object_prototype_get_undefined|].
  intros Hprim Hnone. cbn [String.eqb Ascii.eqb Bool.eqb]. rewrite Hnone.
  split; [by destruct obj|done].
Qed.

Lemma getClass_after_defineClass_witness :
  ∃ cs1 cs2 : gmap string Value,
    defineClass "Hero" (VFunction 1) ∅ = Some cs1
    ∧ defineClass "Hero" (VFunction 2) cs1 = Some cs2
    ∧ getClass "Hero" cs1 = VFunction 1 ∧ getClass "Hero" cs2 = VFunction 2
    ∧ getClass "constructor" cs1
      = (if decide ("Hero"%string = "constructor"%string) then VFunction 1
         else getClass "constructor" ∅)
    ∧ (getClass "constructor" (∅ : gmap string Value) = VUndefined
       ↔ "constructor"%string ≠ "__proto__"%string
         ∧ "constructor"%string ∉ Object_prototype_functions)
    ∧ (is_prototype (VFunction 1) = false →
       (∅ : gmap string Value) !! "__proto__"%string = None →
       defineClass "__proto__" (VFunction 1) ∅ = Some ∅
       ∧ getClass "__proto__" (∅ : gmap string Value) = VObjectPrototype).
Proof.
  apply (getClass_after_defineClass "Hero" "constructor" (VFunction 1)
           (VFunction 2) ∅).
  discriminate.
Defined.

(** ** The frame loop *)

(** [render] writes [_children] and [_drawCount] and nothing else. *)
Lemma render_engine (ctx : option CtxRef) (e : Engine) :
  (render ctx e).1.1
  = set_drawCount (_drawCount (render ctx e).1.1)
      (set_children (_children (render ctx e).1.1) e).
Proof.
  destruct e. unfold render, depthSortChildren. cbn.
  repeat case_match; simplify_eq; done.
Qed.

Lemma render_returns (e : Engine) (c : CtxRef) (nodes : list Node) :
  _children e = Some nodes → Forall returns nodes →
  render (Some c) e
  = (set_drawCount (_drawCount e + total_draws (visit_order e nodes))
       (if _viewportDepth e then depthSortChildren e else e),
     enter e c ++ flat_map (around c) (visit_order e nodes) ++ [CtxRestore c],
     Return VUndefined).
Proof.
  intros Hch Hall.
  assert (Hvisit : Forall returns (visit_order e nodes))
    by by rewrite visit_order_Permutation.
  revert Hvisit. unfold render, visit_order, depthSortChildren.
  rewrite Hch. destruct (_viewportDepth e); cbn; intros Hvisit.
  - by rewrite (render_loop_returns c _ Hvisit).
  - rewrite Hch. by rewrite (render_loop_returns c _ Hvisit).
Qed.

(** The engine a tick hands to [render]. *)
Lemma tick_unfold (e : Engine) (timeStamp : Z) (ctx : option CtxRef) :
  _state e ≠ 0 →
  ∃ e0 : Engine,
    tick timeStamp ctx e
    = (let '(e1, effs, r) := render (resolve ctx e) e0 in
       match r with
       | Throw err =>
           (e1, RequestAnimFrame :: ProcessBehaviours (resolve ctx e) :: effs,
            Throw err)
       | Return _ =>
           (set_drawCount 0
              (set_dpt (Some (_drawCount e1))
                 (set_frames (_frames e1 + 1)
                    (set_lastTick (tickStart e1) e1))),
            (RequestAnimFrame :: ProcessBehaviours (resolve ctx e) :: effs)
              ++ [InputTick],
            Return VUndefined)
       end)
    ∧ e0 = set_tickDelta (tickDelta e0)
             (set_lastTick (lastTick e0)
                (set_tickStart (Some (timeStamp - _clientNetDiff e))
                   (set_frameAlternator (negb (_frameAlternator e)) e)))
    ∧ lastTick e0 = (if truthy (lastTick e) then lastTick e else Some 0).
Proof.
  intros Hrun. apply Z.eqb_neq in Hrun. unfold tick. rewrite Hrun. cbn [negb].
  eexists. split; [reflexivity|].
  cbn. destruct (truthy (lastTick e)); split; reflexivity.
Qed.

(** What a tick whose [render] returns leaves. *)
Lemma tick_returning (e : Engine) (timeStamp : Z) (ctx : option CtxRef)
    (c : CtxRef) (nodes : list Node) :
  _state e ≠ 0 → resolve ctx e = Some c →
  _children e = Some nodes → Forall returns nodes →
  let '(e', effs, r) := tick timeStamp ctx e in
  r = Return VUndefined
  ∧ _frames e' = _frames e + 1
  ∧ _frameAlternator e' = negb (_frameAlternator e)
  ∧ lastTick e' = Some (timeStamp - _clientNetDiff e)
  ∧ _dpt e' = Some (_drawCount e + total_draws (visit_order e nodes))
  ∧ _drawCount e' = 0
  ∧ _state e' = _state e
  ∧ effs = [RequestAnimFrame; ProcessBehaviours (Some c)]
             ++ enter e c ++ flat_map (around c) (visit_order e nodes)
             ++ [CtxRestore c; InputTick]
  ∧ _ctx e' = _ctx e
  ∧ _children e'
    = Some (if _viewportDepth e then depth_sort nodes else nodes).
Proof.
  intros Hrun Hctx Hch Hall.
  destruct (tick_unfold e timeStamp ctx Hrun) as (e0 & -> & He0 & _).
  rewrite Hctx.
  assert (Hch0 : _children e0 = Some nodes) by by rewrite He0.
  rewrite (render_returns e0 c nodes Hch0 Hall).
  assert (Hvisit : visit_order e0 nodes = visit_order e nodes)
    by by rewrite He0.
  assert (Henter : enter e0 c = enter e c) by by rewrite He0.
  rewrite Hvisit, Henter.
  assert (Hfields :
    ∀ e1, e1 = (if _viewportDepth e0 then depthSortChildren e0 else e0) →
      _frames e1 = _frames e
      ∧ _frameAlternator e1 = negb (_frameAlternator e)
      ∧ tickStart e1 = Some (timeStamp - _clientNetDiff e)
      ∧ _state e1 = _state e ∧ _ctx e1 = _ctx e
      ∧ _children e1
        = Some (if _viewportDepth e then depth_sort nodes else nodes)).
  { intros e1 ->. unfold depthSortChildren. rewrite Hch0, He0.
    by destruct (_viewportDepth _). }
  destruct (Hfields _ eq_refl) as (Hfr & Halt & Hts & Hst & Hcx & Hchn).
  assert (Hdc : _drawCount e0 = _drawCount e) by by rewrite He0.
  cbn. rewrite Hfr, Halt, Hts, Hst, Hdc, Hcx, Hchn.
  repeat split. by rewrite <- !app_assoc.
Qed.

(** X15: a tick of a running engine whose root nodes all return, with a
    drawing context at hand: it returns; it counts one frame, flips the
    frame alternator, remembers its corrected time, takes the draw calls
    made since the last frame into [_dpt] and zeroes [_drawCount]; it keeps
    the engine running, and it re-arms the loop first and resets the input
    last. *)
Theorem tick_accounts (e : Engine) (timeStamp : Z) (ctx : option CtxRef)
    (c : CtxRef) (nodes : list Node) :
  _state e ≠ 0 → resolve ctx e = Some c →
  _children e = Some nodes → Forall returns nodes →
  let '(e', effs, r) := tick timeStamp ctx e in
  r = Return VUndefined
  ∧ _frames e' = _frames e + 1
  ∧ _frameAlternator e' = negb (_frameAlternator e)
  ∧ lastTick e' = Some (timeStamp - _clientNetDiff e)
  ∧ _dpt e' = Some (_drawCount e + total_draws (visit_order e nodes))
  ∧ _drawCount e' = 0
  ∧ _state e' = _state e
  ∧ effs = [RequestAnimFrame; ProcessBehaviours (Some c)]
             ++ enter e c ++ flat_map (around c) (visit_order e nodes)
             ++ [CtxRestore c; InputTick].
Proof.
  intros Hrun Hctx Hch Hall.
  pose proof (tick_returning e timeStamp ctx c nodes Hrun Hctx Hch Hall)
    as Htick.
  destruct (tick timeStamp ctx e) as [[e' effs] r].
  by destruct Htick as (? & ? & ? & ? & ? & ? & ? & ? & _).
Qed.

Lemma tick_accounts_witness :
  let '(e', effs, r) :=
    tick 5000 None (set_state 1 (with_viewports false [vp3; vp1; vp2])) in
  r = Return VUndefined
  ∧ _frames e' = 0 + 1
  ∧ _frameAlternator e' = negb false
  ∧ lastTick e' = Some (5000 - 0)
  ∧ _dpt e' = Some (0 + total_draws [vp2; vp1; vp3])
  ∧ _drawCount e' = 0
  ∧ _state e' = 1
  ∧ effs = [RequestAnimFrame; ProcessBehaviours (Some IgeDummyContext)]
             ++ enter server IgeDummyContext
             ++ flat_map (around IgeDummyContext) [vp2; vp1; vp3]
             ++ [CtxRestore IgeDummyContext; InputTick].
Proof.
  apply (tick_accounts (set_state 1 (with_viewports false [vp3; vp1; vp2]))
           5000 None IgeDummyContext [vp3; vp1; vp2]);
    [discriminate|reflexivity|reflexivity|repeat constructor].
Defined.

(** [render] issues context calls and child ticks only. *)
Lemma render_loop_effects (c : CtxRef) (arr : list Node) :
  Forall (λ eff, eff ≠ InputTick) (render_loop c arr).1.2.
Proof.
  induction arr as [|n rest IH]; cbn; [constructor|].
  destruct (tick_raises n); cbn.
  - repeat (constructor; [discriminate|]). constructor.
  - destruct (render_loop c rest) as [[draws effs] r]. cbn in *.
    by repeat (constructor; [discriminate|]).
Qed.

Lemma render_effects (ctx : option CtxRef) (e : Engine) :
  Forall (λ eff, eff ≠ InputTick) (render ctx e).1.2.
Proof.
  unfold render.
  destruct ctx as [c|]; [|constructor].
  destruct (_children _) as [arr|]; cbn;
    [|repeat (constructor; [discriminate|]); constructor].
  pose proof (render_loop_effects c (reverse arr)) as Hloop.
  destruct (render_loop c (reverse arr)) as [[draws effs] r]. cbn in Hloop.
  destruct r; cbn; repeat (constructor; [discriminate|]); [|done].
  apply Forall_app. split; [done|].
  repeat (constructor; [discriminate|]). constructor.
Qed.

(** X16: a tick of a running engine that raises, whatever the reason, has
    re-armed the loop before, but is not accounted for: the frame is not
    counted, [_dpt] is not refreshed, the input is not reset and the tick's
    time is not remembered. *)
Theorem tick_raising (e : Engine) (timeStamp : Z) (ctx : option CtxRef)
    (err : Error) :
  _state e ≠ 0 → (tick timeStamp ctx e).2 = Throw err →
  let '(e', effs, _) := tick timeStamp ctx e in
  head effs = Some RequestAnimFrame
  ∧ (InputTick ∉ effs)
  ∧ _frames e' = _frames e
  ∧ _dpt e' = _dpt e
  ∧ lastTick e' = (if truthy (lastTick e) then lastTick e else Some 0)
  ∧ _state e' = _state e.
Proof.
  intros Hrun.
  destruct (tick_unfold e timeStamp ctx Hrun) as (e0 & -> & He0 & Hlast).
  pose proof (render_engine (resolve ctx e) e0) as Heng.
  pose proof (render_effects (resolve ctx e) e0) as Heffs.
  destruct (render (resolve ctx e) e0) as [[e1 effs] r] eqn:Hr.
  cbn [fst snd] in Heng, Heffs.
  destruct r as [v|err']; [done|]. intros _. cbn [fst snd].
  split; [done|]. split.
  - intros Hin. rewrite Forall_forall in Heffs.
    apply elem_of_cons in Hin as [Heq|Hin]; [discriminate|].
    apply elem_of_cons in Hin as [Heq|Hin]; [discriminate|].
    by apply (Heffs InputTick).
  - rewrite Heng, He0. cbn. by rewrite <- Hlast, He0.
Qed.

Lemma tick_raising_witness :
  let '(e', effs, _) :=
    tick 5000 None (set_state 1 (with_viewports false [vp3; broken; vp1])) in
  head effs = Some RequestAnimFrame
  ∧ (InputTick ∉ effs)
  ∧ _frames e' = 0
  ∧ _dpt e' = None
  ∧ lastTick e' = Some 0
  ∧ _state e' = 1.
Proof.
  apply (tick_raising (set_state 1 (with_viewports false [vp3; broken; vp1]))
           5000 None (Raised "broken")); [discriminate|reflexivity].
Defined.

(** Frames of a running engine whose root nodes all return keep it so. *)
Lemma ticks_frames (timeStamps : list Z) (ctx : option CtxRef) (c : CtxRef) :
  ∀ (e : Engine) (nodes : list Node),
    _state e ≠ 0 → resolve ctx e = Some c →
    _children e = Some nodes → Forall returns nodes →
    _frames (ticks timeStamps ctx e)
    = _frames e + Z.of_nat (length timeStamps).
Proof.
  induction timeStamps as [|timeStamp rest IH]; intros e nodes Hrun Hctx Hch
    Hall; cbn [ticks length]; [lia|].
  pose proof (tick_returning e timeStamp ctx c nodes Hrun Hctx Hch Hall)
    as Htick.
  destruct (tick timeStamp ctx e) as [[e' effs] r]. cbn [fst].
  destruct Htick as (_ & Hfr & _ & _ & _ & _ & Hst & _ & Hcx & Hchn).
  rewrite (IH e' (if _viewportDepth e then depth_sort nodes else nodes)).
  - lia.
  - by rewrite Hst.
  - unfold resolve in *. destruct ctx; [done|]. by rewrite Hcx.
  - done.
  - destruct (_viewportDepth e); [|done].
    by rewrite depth_sort_Permutation.
Qed.

(** X17: the frames per second are the frames between two firings of the
    second timer: when the timer fires, then the frames with the given
    timestamps run on a running engine whose root nodes all return, and the
    timer fires again, [_fps] is the number of those frames. *)
Theorem fps_counts_frames (timeStamps : list Z) (ctx : option CtxRef)
    (c : CtxRef) (e : Engine) (nodes : list Node) :
  _state e ≠ 0 → resolve ctx e = Some c →
  _children e = Some nodes → Forall returns nodes →
  _fps (_secondTick (ticks timeStamps ctx (_secondTick e)))
  = Z.of_nat (length timeStamps).
Proof.
  intros Hrun Hctx Hch Hall.
  change (_fps (_secondTick (ticks timeStamps ctx (_secondTick e))))
    with (_frames (ticks timeStamps ctx (_secondTick e))).
  by rewrite (ticks_frames timeStamps ctx c (_secondTick e) nodes).
Qed.

Lemma fps_counts_frames_witness :
  _fps (_secondTick
          (ticks [5000; 5016; 5033] None
             (_secondTick (set_state 1 (with_viewports true [vp3; vp1; vp2])))))
  = Z.of_nat (length [5000; 5016; 5033]).
Proof.
  apply (fps_counts_frames [5000; 5016; 5033] None IgeDummyContext
           (set_state 1 (with_viewports true [vp3; vp1; vp2]))
           [vp3; vp1; vp2]);
    [discriminate|reflexivity|reflexivity|repeat constructor].
Defined.

(** X18: after [stop], a frame that was still scheduled does nothing: the
    tick changes no field, issues no call and does not re-arm the loop. *)
Theorem tick_after_stop (e : Engine) (timeStamp : Z) (ctx : option CtxRef) :
  tick timeStamp ctx (stop e).1 = ((stop e).1, [], Return VUndefined).
Proof.
  unfold tick.
  assert (Hstopped : _state (stop e).1 = 0).
  { unfold stop. destruct (Z.eqb_spec (_state e) 0); by cbn. }
  by rewrite Hstopped.
Qed.

(** X19: a tick of a running engine that is handed no drawing context and
    has none of its own raises a [TypeError]: it has re-armed the loop and
    run the behaviours, and it issues no call on any context. *)
Theorem tick_without_context (e : Engine) (timeStamp : Z) :
  _state e ≠ 0 → _ctx e = None →
  (tick timeStamp None e).2 = Throw TypeError
  ∧ (tick timeStamp None e).1.2
    = [RequestAnimFrame; ProcessBehaviours None].
Proof.
  intros Hrun Hctx.
  destruct (tick_unfold e timeStamp None Hrun) as (e0 & -> & _ & _).
  unfold resolve. rewrite Hctx. by unfold render.
Qed.

Lemma tick_without_context_witness :
  (tick 5000 None (set_state 1 browser)).2 = Throw TypeError
  ∧ (tick 5000 None (set_state 1 browser)).1.2
    = [RequestAnimFrame; ProcessBehaviours None].
Proof.
  apply (tick_without_context (set_state 1 browser) 5000);
    [discriminate|reflexivity].
Defined.

(** X20: stopping and starting again does not make the next tick a first
    tick: when a tick at [t1] has returned with a corrected time that is
    not zero, and the engine is stopped and started again, the tick at [t2]
    gets the delta [t2 - t1], the pause included. *)
Theorem tick_delta_spans_pause (e : Engine) (t1 t2 curTime : Z)
    (ctx1 ctx2 : option CtxRef) (callback : Value) :
  _state e ≠ 0 → (tick t1 ctx1 e).2 = Return VUndefined →
  t1 - _clientNetDiff e ≠ 0 →
  dependencyCheck (stop (tick t1 ctx1 e).1.1).1 = true →
  let resumed := (start curTime callback (stop (tick t1 ctx1 e).1.1).1).1 in
  (stop (tick t1 ctx1 e).1.1).2 = true
  ∧ _state resumed = 1
  ∧ tickDelta (tick t2 ctx2 resumed).1.1 = t2 - t1.
Proof.
  intros Hrun Hret Hnz Hdeps resumed.
  destruct (tick_keeps_state_and_offset e t1 ctx1 Hrun) as [Hstate Hoff].
  pose proof (tick_lastTick e t1 ctx1 Hrun Hret) as Hlast.
  assert (Hstop : stop (tick t1 ctx1 e).1.1
                  = (set_state 0 (tick t1 ctx1 e).1.1, true)).
  { unfold stop. rewrite Hstate. by apply Z.eqb_neq in Hrun as ->. }
  assert (Hresumed : resumed = set_state 1 (set_state 0 (tick t1 ctx1 e).1.1)).
  { subst resumed. revert Hdeps. rewrite Hstop. cbn [fst].
    intros Hdeps. unfold start. by rewrite Hdeps. }
  rewrite Hstop. split; [done|]. split; [by rewrite Hresumed|].
  rewrite tick_tickDelta by by rewrite Hresumed.
  rewrite Hresumed. cbn [lastTick _clientNetDiff set_state].
  rewrite Hlast, Hoff. cbn. apply Z.eqb_neq in Hnz as ->. cbn. lia.
Qed.

Lemma tick_delta_spans_pause_witness :
  let resumed :=
    (start 9000 VUndefined (stop (tick 5000 None running_server).1.1).1).1 in
  (stop (tick 5000 None running_server).1.1).2 = true
  ∧ _state resumed = 1
  ∧ tickDelta (tick 9000 None resumed).1.1 = 9000 - 5000.
Proof.
  apply (tick_delta_spans_pause running_server 5000 9000 9000 None None
           VUndefined); reflexivity || discriminate.
Defined.

(** ** Statistics *)

(** X21: the draws per second are not a number until a frame has been
    accounted for: on the engine [init] leaves, the second timer sets
    [_dps] to [NaN]; after a tick that returned, it sets it to the draw
    calls of that frame times the frames counted. *)
Theorem dps_after_first_frame (onServer : bool) (geom : IgePoint)
    (e : Engine) (timeStamp : Z) (ctx : option CtxRef) (c : CtxRef)
    (nodes : list Node) :
  _state e ≠ 0 → resolve ctx e = Some c →
  _children e = Some nodes → Forall returns nodes →
  _dps (_secondTick (init onServer geom)) = NaN
  ∧ _dps (_secondTick (tick timeStamp ctx e).1.1)
    = Finite ((_drawCount e + total_draws (visit_order e nodes))
              * (_frames e + 1)).
Proof.
  intros Hrun Hctx Hch Hall. split; [done|].
  pose proof (tick_returning e timeStamp ctx c nodes Hrun Hctx Hch Hall)
    as Htick.
  destruct (tick timeStamp ctx e) as [[e' effs] r]. cbn [fst].
  destruct Htick as (_ & Hfr & _ & _ & Hdpt & _).
  cbn. by rewrite Hdpt, Hfr.
Qed.

Lemma dps_after_first_frame_witness :
  _dps (_secondTick (init true (MkPoint 0 0))) = NaN
  ∧ _dps (_secondTick
            (tick 5000 None
               (set_state 1 (with_viewports false [vp3; vp1; vp2]))).1.1)
    = Finite ((0 + total_draws [vp2; vp1; vp3]) * (0 + 1)).
Proof.
  apply (dps_after_first_frame true (MkPoint 0 0)
           (set_state 1 (with_viewports false [vp3; vp1; vp2])) 5000 None
           IgeDummyContext [vp3; vp1; vp2]);
    [discriminate|reflexivity|reflexivity|repeat constructor].
Defined.

(** ** Walking the scene graph *)

(** Induction over a node and the nodes of its child collection. *)
Lemma Node_children_ind (P : Node → Prop) :
  (∀ n : Node,
      (∀ arr, node_children n = Some arr → Forall P arr) → P n) →
  ∀ n : Node, P n.
Proof.
  intros step. fix IH 1. intros n. apply step.
  destruct n as [id classId parent depth children scene render draws raises].
  cbn. destruct children as [arr0|]; [|discriminate].
  intros arr [= <-]. revert arr0. fix IHarr 1.
  intros [|child rest]; constructor; [apply IH|apply IHarr].
Qed.

(** The two walks, one level at a time. *)
Lemma sceneGraph_node_eq (obj : Node) (currentDepth : nat) :
  sceneGraph_node obj currentDepth
  = ConsoleLog (depthSpace currentDepth
                  +:+ label (node_id obj) (_classId obj))
    :: match node_children obj with
       | Some arr =>
           flat_map (λ child, sceneGraph_node child (S currentDepth))
             (reverse arr)
       | None => []
       end.
Proof.
  destruct obj as [id classId parent depth children scene render draws
                     raises].
  cbn. f_equal. destruct children as [arr|]; [|done].
  induction arr as [|child rest IH]; [done|].
  rewrite reverse_cons, flat_map_app, IH. cbn. by rewrite app_nil_r.
Qed.

Lemma getSceneGraphData_node_eq (obj : Node) :
  getSceneGraphData_node obj
  = with_items (label (node_id obj) (_classId obj)) (_parent obj)
      (node_id obj)
      match node_children obj with
      | Some arr => map getSceneGraphData_node (reverse arr)
      | None => []
      end.
Proof.
  destruct obj as [id classId parent depth children scene render draws
                     raises].
  cbn. f_equal. destruct children as [arr|]; [|done].
  induction arr as [|child rest IH]; [done|].
  by rewrite reverse_cons, map_app, IH.
Qed.

Lemma item_lines_with_items (currentDepth : nat) (text : string)
    (parent : option handle) (id : string) (items : list Item) :
  item_lines currentDepth (with_items text parent id items)
  = ConsoleLog (depthSpace currentDepth +:+ text)
    :: flat_map (item_lines (S currentDepth)) items.
Proof.
  unfold with_items. by destruct items.
Qed.

Lemma walks_agree (obj : Node) :
  ∀ currentDepth : nat,
    sceneGraph_node obj currentDepth
    = item_lines currentDepth (getSceneGraphData_node obj).
Proof.
  induction obj as [obj IH] using Node_children_ind. intros currentDepth.
  rewrite sceneGraph_node_eq, getSceneGraphData_node_eq,
    item_lines_with_items.
  f_equal. destruct (node_children obj) as [arr|]; [|done].
  specialize (IH arr eq_refl). apply Forall_reverse in IH.
  induction IH as [|child rest Hchild _ IHrest]; [done|].
  cbn. by rewrite Hchild, IHrest.
Qed.

(** X22: below the engine, the two walks of the scene graph agree: the
    lines [sceneGraph] prints for a node are the items [getSceneGraphData]
    builds for it, read line by line, one node per line, the children of a
    node from the last to the first and one level deeper than the node. *)
Theorem sceneGraph_prints_getSceneGraphData (obj : Node)
    (currentDepth : nat) (e : Engine) :
  sceneGraph (Some obj) (Some currentDepth) e
  = (item_lines currentDepth (getSceneGraphData (Some obj) e),
     Return VUndefined).
Proof. cbn. by rewrite walks_agree. Qed.

Lemma sceneGraph_viewports_shown (arr : list Node) :
  Forall (λ vp, is_shown vp = true) arr →
  sceneGraph_viewports 0 arr
  = (flat_map (λ vp, item_lines 1 (viewport_item vp)) arr,
     Return VUndefined).
Proof.
  induction 1 as [|vp rest Hvp _ IH]; [done|].
  cbn [sceneGraph_viewports flat_map]. rewrite IH.
  unfold is_shown in Hvp. unfold viewport_item.
  destruct (_scene vp) as [scene|]; [|done]. rewrite Hvp.
  cbn. by rewrite walks_agree, app_nil_r.
Qed.

(** X23: for the engine itself, when every viewport has a scene that is to
    be rendered, [sceneGraph] returns and prints the items of
    [getSceneGraphData], line by line: the engine, then each viewport from
    the last to the first, one level deeper, each followed by its scene. *)
Theorem sceneGraph_engine_prints_getSceneGraphData (e : Engine)
    (nodes : list Node) :
  _children e = Some nodes →
  Forall (λ vp, is_shown vp = true) nodes →
  sceneGraph None None e
  = (item_lines 0 (getSceneGraphData None e), Return VUndefined).
Proof.
  intros Hch Hshown. unfold sceneGraph, getSceneGraphData. rewrite Hch.
  rewrite item_lines_with_items.
  rewrite sceneGraph_viewports_shown by by apply Forall_reverse.
  cbn [default]. f_equal. f_equal.
  generalize (reverse nodes). intros arr.
  induction arr as [|vp rest IH]; [done|]. cbn [map flat_map]. by rewrite IH.
Qed.

Lemma sceneGraph_engine_prints_getSceneGraphData_witness :
  sceneGraph None None
    (with_viewports false [showing "vpSide" scene1; showing "vpMain" scene1])
  = (item_lines 0
       (getSceneGraphData None
          (with_viewports false
             [showing "vpSide" scene1; showing "vpMain" scene1])),
     Return VUndefined).
Proof.
  apply (sceneGraph_engine_prints_getSceneGraphData
           (with_viewports false
              [showing "vpSide" scene1; showing "vpMain" scene1])
           [showing "vpSide" scene1; showing "vpMain" scene1]);
    [reflexivity|repeat constructor].
Defined.

Lemma sceneGraph_viewports_filter (currentDepth : nat) (arr : list Node) :
  Forall (λ vp, _scene vp ≠ None) arr →
  sceneGraph_viewports currentDepth (filter (λ vp, is_shown vp = true) arr)
  = sceneGraph_viewports currentDepth arr.
Proof.
  induction 1 as [|vp rest Hvp _ IH]; [done|].
  rewrite filter_cons.
  destruct (decide (is_shown vp = true)) as [Hshown|Hshown];
    cbn [sceneGraph_viewports]; rewrite IH; [done|].
  unfold is_shown in Hshown.
  destruct (_scene vp) as [scene|]; [|done].
  destruct (_shouldRender scene); [done|].
  by destruct (sceneGraph_viewports currentDepth rest).
Qed.

(** X24: a viewport whose scene is not to be rendered leaves no trace in
    what [sceneGraph] prints: when every viewport has a scene, the walk of
    the engine is the walk of the engine with only the viewports kept whose
    scene is to be rendered. *)
Theorem sceneGraph_skips_hidden (e : Engine) (nodes : list Node)
    (currentDepth : option nat) :
  Forall (λ vp, _scene vp ≠ None) nodes →
  sceneGraph None currentDepth (set_children (Some nodes) e)
  = sceneGraph None currentDepth
      (set_children (Some (filter (λ vp, is_shown vp = true) nodes)) e).
Proof.
  intros Hscenes. unfold sceneGraph. cbn [_children set_children].
  by rewrite <- filter_reverse, sceneGraph_viewports_filter
    by by apply Forall_reverse.
Qed.

Lemma sceneGraph_skips_hidden_witness :
  sceneGraph None None
    (set_children
       (Some [showing "vpHidden" hidden; showing "vpMain" scene1]) server)
  = sceneGraph None None
      (set_children
         (Some (filter (λ vp, is_shown vp = true)
                  [showing "vpHidden" hidden; showing "vpMain" scene1]))
         server).
Proof.
  apply (sceneGraph_skips_hidden server
           [showing "vpHidden" hidden; showing "vpMain" scene1] None).
  repeat constructor; discriminate.
Defined.

Lemma sceneGraph_engine_completion_witness :
  (sceneGraph None None (with_viewports false [showing "vpMain" scene1; vp1])).2
  = Throw TypeError
  ↔ Exists (λ vp, _scene vp = None) [showing "vpMain" scene1; vp1].
Proof.
  apply (sceneGraph_engine_completion
           (with_viewports false [showing "vpMain" scene1; vp1])
           [showing "vpMain" scene1; vp1]).
  reflexivity.
Defined.

(** ** The front buffer *)

Lemma even_down_spec (v : Z) :
  Z.rem (even_down v) 2 = 0 ∧ v - 1 ≤ even_down v ≤ v.
Proof.
  unfold even_down. destruct (Z.eqb_spec (Z.rem v 2) 0) as [Hz|Hnz].
  - split; [done|lia].
  - split; [|lia]. revert Hnz. Z.quot_rem_to_equations. lia.
Qed.

Section FrontBufferProperties.

Variable newIgePoint : Z → Z → Z → IgePoint.

(** X26: a resize of an engine with [_autoSize] set, a canvas bound and a
    child collection gives the canvas an even width and an even height,
    each the inner size of the window or one less; the geometry is built
    from that size, and every root node hears of the resize, the last one
    first. *)
Theorem resizeEvent_even (innerWidth innerHeight : Z) (e : Engine)
    (s : Surface) (arr : list Node) (elem : nat) :
  _autoSize s = true → _children e = Some arr → _canvas e = Some elem →
  let '(e', s', calls, r) :=
    _resizeEvent newIgePoint innerWidth innerHeight e s in
  r = Return VUndefined
  ∧ Z.rem (width s') 2 = 0 ∧ Z.rem (height s') 2 = 0
  ∧ innerWidth - 1 ≤ width s' ≤ innerWidth
  ∧ innerHeight - 1 ≤ height s' ≤ innerHeight
  ∧ geometry e' = newIgePoint (width s') (height s') 0
  ∧ calls = map ChildResize (reverse arr).
Proof.
  intros Hauto Hch Hcanvas. unfold _resizeEvent.
  rewrite Hauto, Hch, Hcanvas. cbn -[even_down Z.rem].
  destruct (even_down_spec innerWidth) as [Hw1 Hw2].
  destruct (even_down_spec innerHeight) as [Hh1 Hh2].
  repeat split; done || lia.
Qed.

(** X27: [canvas] binds the front buffer once: the first call on an engine
    without a canvas stores the element and its 2d context; any later call,
    with whatever element, changes nothing and calls nothing. *)
Theorem canvas_binds_once (elem1 elem2 : CanvasElem) (auto1 auto2 : bool)
    (w1 h1 w2 h2 : Z) (e : Engine) (s : Surface) :
  _canvas e = None →
  let '(e1, s1, _, _) := canvas newIgePoint elem1 auto1 w1 h1 e s in
  _canvas e1 = Some (elem_id elem1)
  ∧ _ctx e1 = Some (Context2d (elem_id elem1))
  ∧ canvas newIgePoint elem2 auto2 w2 h2 e1 s1
    = (e1, s1, [], Return VUndefined).
Proof.
  intros Hnone. unfold canvas at 1. rewrite Hnone.
  destruct auto1.
  - unfold _resizeEvent. cbn.
    destruct (_children e) as [arr|]; cbn; by repeat split.
  - cbn. by repeat split.
Qed.

(** X28: in a browser, with no texture loading, the engine [init] leaves
    cannot start before a canvas is bound and starts at once after: before
    [canvas], [start] records the time and schedules a retry; after
    [canvas], with or without [autoSize], it succeeds. *)
Theorem start_after_canvas (elem : CanvasElem) (auto : bool)
    (innerWidth innerHeight : Z) (geom : IgePoint) (s : Surface)
    (curTime : Z) (f : nat) :
  start curTime (VFunction f) (init false geom)
  = (set_dependencyCheckStart (Some curTime) (init false geom),
     [SetTimeoutStart (VFunction f) 200])
  ∧ (let e1 :=
       (canvas newIgePoint elem auto innerWidth innerHeight
          (init false geom) s).1.1.1 in
     start curTime (VFunction f) e1
     = (set_state 1 e1,
        [Log StartingEngine info; RequestAnimFrame; Log EngineStarted info;
         Callback f true])).
Proof.
  split.
  - unfold start. cbn. by replace (curTime - curTime) with 0 by lia.
  - destruct auto; reflexivity.
Qed.

End FrontBufferProperties.

Lemma resizeEvent_even_witness :
  let '(e', s', calls, r) :=
    _resizeEvent (λ x y _, MkPoint (x / 2) (y / 2)) 1025 768
      (set_canvas (Some 1%nat) (with_viewports false [vp3; vp1; vp2]))
      (MkSurface true 300 150) in
  r = Return VUndefined
  ∧ Z.rem (width s') 2 = 0 ∧ Z.rem (height s') 2 = 0
  ∧ 1025 - 1 ≤ width s' ≤ 1025
  ∧ 768 - 1 ≤ height s' ≤ 768
  ∧ geometry e' = MkPoint (width s' / 2) (height s' / 2)
  ∧ calls = map ChildResize (reverse [vp3; vp1; vp2]).
Proof.
  apply (resizeEvent_even (λ x y _, MkPoint (x / 2) (y / 2)) 1025 768
           (set_canvas (Some 1%nat) (with_viewports false [vp3; vp1; vp2]))
           (MkSurface true 300 150) [vp3; vp1; vp2] 1%nat); reflexivity.
Defined.

Lemma canvas_binds_once_witness :
  let '(e1, s1, _, _) :=
    canvas (λ x y _, MkPoint (x / 2) (y / 2)) (MkCanvasElem 1 300 150) true
      1025 768 browser (MkSurface false 0 0) in
  _canvas e1 = Some 1%nat
  ∧ _ctx e1 = Some (Context2d 1)
  ∧ canvas (λ x y _, MkPoint (x / 2) (y / 2)) (MkCanvasElem 2 640 480) false
      800 600 e1 s1
    = (e1, s1, [], Return VUndefined).
Proof.
  apply (canvas_binds_once (λ x y _, MkPoint (x / 2) (y / 2))
           (MkCanvasElem 1 300 150) (MkCanvasElem 2 640 480) true false
           1025 768 800 600 browser (MkSurface false 0 0)).
  reflexivity.
Defined.

(** ** Inherited names in the register *)

(** An entity called ['constructor'] on the engine [init] leaves: nothing
    is registered under that name, yet [register] refuses the entity,
    because the lookup finds the inherited function; [unRegister] takes
    its branch for the same reason, finds no own key to delete and marks
    the entity unregistered. *)
Example register_inherited_name :
  let σ := <[2%positive := MkObj "constructor" None]> init_store in
  _register server !! "constructor"%string = None
  ∧ dollar (VString "constructor") server = VBuiltin "constructor"
  ∧ register (VObject 2%positive) server σ
    = (server, <[2%positive := MkObj "constructor" (Some false)]> σ,
       [Log (DuplicateId "constructor") error], Return (VBool false))
  ∧ _register (unRegister (VObject 2%positive) server σ).1.1
    = _register server
  ∧ (unRegister (VObject 2%positive) server σ).1.2 !! 2%positive
    = Some (MkObj "constructor" (Some false)).
Proof. vm_compute. by repeat split. Qed.
